(** * Schedule model of the workout tracker: splits, derived roster, editor
      operations, debounced persistence and the session-log lookup.

    The development embeds the handlers of [WorkoutScreen.tsx],
    [SplitDetailScreen] and [ProgressScreen] as Rocq functions over lists
    and records, and proves the properties the specification states about
    them.  React state is modelled by explicit state passing: a handler is a
    function from the component state it closes over to the state after its
    [set...] calls have been applied (one render per event). *)

From Stdlib Require Import String Ascii List ZArith NArith Lia Bool Arith.
From Stdlib Require Import Permutation DecimalString.
Import ListNotations.
Open Scope string_scope.
Open Scope list_scope.

(* ------------------------------------------------------------------ *)
(** ** Data model ([types] and the interfaces of [WorkoutScreen.tsx]) *)

(** [{ id: string; name: string; bodyPart: string }], the element type of
    [Split.exercises]. *)
Module ExerciseRef.
Record t := mk { id : string; name : string; bodyPart : string }.
End ExerciseRef.

(** [interface Exercise] of [WorkoutScreen.tsx]. *)
Module Exercise.
Record t := mk
  { id : string; name : string; bodyPart : string; splitIds : list string }.
End Exercise.

(** [interface Split]; [color?: string] is an optional field. *)
Module Split.
Record t := mk
  { id : string;
    name : string;
    days : list string;
    color : option string;
    exercises : list ExerciseRef.t }.
End Split.

(** [interface BodyPartSectionData]. *)
Module BodyPartSectionData.
Record t := mk
  { id : string; bodyPart : string; exercises : list Exercise.t }.
End BodyPartSectionData.

Module EditMode.
Inductive t := none | program | splits.
End EditMode.

Definition WEEKDAYS : list string :=
  ["Mon"; "Tue"; "Wed"; "Thu"; "Fri"; "Sat"; "Sun"].

Definition BODY_PARTS : list string :=
  ["Chest"; "Back"; "Legs"; "Arms"; "Shoulders"; "Core"; "Cardio"].

(* ------------------------------------------------------------------ *)
(** ** The JavaScript primitives the handlers use *)

(** [Array.prototype.includes] on an array of strings. *)
Definition includes (x : string) (l : list string) : bool :=
  existsb (String.eqb x) l.

(** In-place update of the object [Array.prototype.find] returns: the first
    element satisfying [p] is replaced by [f] of it. *)
Fixpoint mutateFound {A : Type} (p : A -> bool) (f : A -> A) (l : list A)
  : list A :=
  match l with
  | [] => []
  | x :: rest => if p x then f x :: rest else x :: mutateFound p f rest
  end.

(** A function either returns or throws a [TypeError]. *)
Inductive result (A : Type) : Type :=
| Ok (a : A)
| TypeError.
Arguments Ok {A} a.
Arguments TypeError {A}.

(** An ordinary object created by the literal [{}] and used as a
    [Record<string, V>].  The own properties are kept in creation order; the
    prototype is [Object.prototype]. *)
Module JsObject.

Definition t (V : Type) : Type := list (string * V).

(** The property names of [Object.prototype]: every one of them holds a
    function or an object, hence a truthy value without a [push]. *)
Definition prototypeKeys : list string :=
  ["constructor"; "hasOwnProperty"; "isPrototypeOf";
   "propertyIsEnumerable"; "toLocaleString"; "toString"; "valueOf";
   "__proto__"; "__defineGetter__"; "__defineSetter__";
   "__lookupGetter__"; "__lookupSetter__"].

Definition inherited (k : string) : bool := includes k prototypeKeys.

(** What [obj[k]] evaluates to. *)
Inductive lookup (V : Type) : Type :=
| Own (v : V)
| Inherited
| Undefined.
Arguments Own {V} v.
Arguments Inherited {V}.
Arguments Undefined {V}.

Definition getOwn {V} (obj : t V) (k : string) : option V :=
  option_map snd (find (fun kv => String.eqb (fst kv) k) obj).

Definition get {V} (obj : t V) (k : string) : lookup V :=
  match getOwn obj k with
  | Some v => Own v
  | None => if inherited k then Inherited else Undefined
  end.

(** Decimal digits of a string, most significant first. *)
Definition digit (c : ascii) : option N :=
  let n := N_of_ascii c in
  if ((48 <=? n) && (n <=? 57))%N then Some (n - 48)%N else None.

Fixpoint digits (s : string) (acc : N) : option N :=
  match s with
  | EmptyString => Some acc
  | String c rest =>
      match digit c with
      | Some d => digits rest (10 * acc + d)%N
      | None => None
      end
  end.

(** An array index is the canonical decimal form of an integer in
    [0, 2^32 - 2]. *)
Definition arrayIndex (k : string) : option N :=
  match k with
  | EmptyString => None
  | String "0" EmptyString => Some 0%N
  | String "0" _ => None
  | _ =>
      if Nat.leb (String.length k) 10 then
        match digits k 0%N with
        | Some n => if (n <=? 4294967294)%N then Some n else None
        | None => None
        end
      else None
  end.

Definition isArrayIndex (k : string) : bool :=
  match arrayIndex k with Some _ => true | None => false end.

Fixpoint insertByIndex {V} (n : N) (kv : string * V)
  (l : list (N * (string * V))) : list (N * (string * V)) :=
  match l with
  | [] => [(n, kv)]
  | (m, kv') :: rest =>
      if (n <=? m)%N then (n, kv) :: l
      else (m, kv') :: insertByIndex n kv rest
  end.

Fixpoint indexed {V} (obj : t V) : list (N * (string * V)) :=
  match obj with
  | [] => []
  | kv :: rest =>
      match arrayIndex (fst kv) with
      | Some n => insertByIndex n kv (indexed rest)
      | None => indexed rest
      end
  end.

(** [Object.entries]: array-index keys in ascending numeric order, then
    the other string keys in creation order. *)
Definition entries {V} (obj : t V) : list (string * V) :=
  map snd (indexed obj)
  ++ filter (fun kv => negb (isArrayIndex (fst kv))) obj.

End JsObject.

(* ------------------------------------------------------------------ *)
(** ** Derivation: [processSplitsData] *)

Record ProcessedData := mkProcessedData
  { exercises : list Exercise.t;
    exercisesByBodyPart : JsObject.t (list Exercise.t);
    bodyPartSections : list BodyPartSectionData.t }.

(** [existingExercise.splitIds.push(split.id)] *)
Definition pushSplitId (sid : string) (e : Exercise.t) : Exercise.t :=
  Exercise.mk (Exercise.id e) (Exercise.name e) (Exercise.bodyPart e)
    (Exercise.splitIds e ++ [sid]).

(** Body of [split.exercises.forEach(exercise => ...)]. *)
Definition forEachExercise (split : Split.t) (acc : list Exercise.t)
  (exercise : ExerciseRef.t) : list Exercise.t :=
  let sameId := fun e => String.eqb (Exercise.id e) (ExerciseRef.id exercise) in
  match find sameId acc with
  | Some existingExercise =>
      if negb (includes (Split.id split) (Exercise.splitIds existingExercise))
      then mutateFound sameId (pushSplitId (Split.id split)) acc
      else acc
  | None =>
      acc ++ [Exercise.mk (ExerciseRef.id exercise) (ExerciseRef.name exercise)
                (ExerciseRef.bodyPart exercise) [Split.id split]]
  end.

(** [splitsData.reduce((acc, split) => ..., [])]: the deduplicated roster. *)
Definition dedupeExercises (splitsData : list Split.t) : list Exercise.t :=
  fold_left
    (fun acc split => fold_left (forEachExercise split) (Split.exercises split) acc)
    splitsData [].

(** Body of the second [reduce]: [acc[bodyPart]] is created when falsy, then
    pushed to.  An inherited property is truthy and has no [push]. *)
Definition groupStep (acc : result (JsObject.t (list Exercise.t)))
  (exercise : Exercise.t) : result (JsObject.t (list Exercise.t)) :=
  match acc with
  | TypeError => TypeError
  | Ok obj =>
      let bp := Exercise.bodyPart exercise in
      match JsObject.get obj bp with
      | JsObject.Undefined => Ok (obj ++ [(bp, [exercise])])
      | JsObject.Own _ =>
          Ok (mutateFound (fun kv => String.eqb (fst kv) bp)
                (fun kv => (fst kv, snd kv ++ [exercise])) obj)
      | JsObject.Inherited => TypeError
      end
  end.

Definition groupByBodyPart (exercises : list Exercise.t)
  : result (JsObject.t (list Exercise.t)) :=
  fold_left groupStep exercises (Ok []).

Definition toSections (obj : JsObject.t (list Exercise.t))
  : list BodyPartSectionData.t :=
  map (fun kv => BodyPartSectionData.mk (fst kv) (fst kv) (snd kv))
      (JsObject.entries obj).

Definition processSplitsData (splitsData : list Split.t) : result ProcessedData :=
  let exercises := dedupeExercises splitsData in
  match groupByBodyPart exercises with
  | Ok exercisesByBodyPart =>
      Ok (mkProcessedData exercises exercisesByBodyPart
            (toSections exercisesByBodyPart))
  | TypeError => TypeError
  end.

(** Flattening of the grouped output, in group order. *)
Definition flattenSections (sections : list BodyPartSectionData.t)
  : list Exercise.t :=
  flat_map BodyPartSectionData.exercises sections.

(** The schedule of the specification's example. *)
Definition chest1 := ExerciseRef.mk "chest-1" "Flat Bench Press" "Chest".
Definition chest2 := ExerciseRef.mk "chest-2" "Incline Bench Press" "Chest".
Definition legs1 := ExerciseRef.mk "legs-1" "Squats" "Legs".
Definition splitA := Split.mk "A" "Push" ["Mon"] None [chest1].
Definition splitB := Split.mk "B" "Legs" ["Wed"] None [chest1; legs1].

(** A split whose exercises alternate between two body parts. *)
Definition interleavedSchedule : list Split.t :=
  [Split.mk "A" "Full body" ["Mon"] None [chest1; legs1; chest2]].

(** Exercises whose body-part names are the array indices "2" and "1". *)
Definition numericSchedule : list Split.t :=
  [Split.mk "A" "Circuit" ["Mon"] None
     [ExerciseRef.mk "station-2" "Rope" "2";
      ExerciseRef.mk "station-1" "Sled" "1"]].

(** An exercise whose body-part name is a property of [Object.prototype]. *)
Definition inheritedSchedule : list Split.t :=
  [Split.mk "A" "Misc" ["Mon"] None
     [ExerciseRef.mk "misc-1" "Carry" "constructor"]].

(** A split listing the same exercise twice. *)
Definition repeatedSchedule : list Split.t :=
  [Split.mk "A" "Push" ["Mon"] None [chest1; chest1]; splitB].

(* ------------------------------------------------------------------ *)
(** ** Split editor: the handlers of [WorkoutScreen] *)

(** [Number.prototype.toString] on an integer. *)
Definition numberToString (n : Z) : string :=
  NilZero.string_of_int (Z.to_int n).

(** Truthiness of a [string | null]. *)
Definition truthy (s : option string) : bool :=
  match s with
  | Some s => negb (String.eqb s "")
  | None => false
  end.

Module WorkoutScreen.

(** The [useState] cells the handlers read and write. *)
Record t := mk
  { splits : list Split.t;
    editMode : EditMode.t;
    selectedDay : option string;
    selectedSplit : option Split.t;
    selectedSplitDetail : option Split.t }.

Definition isMode (m m' : EditMode.t) : bool :=
  match m, m' with
  | EditMode.none, EditMode.none
  | EditMode.program, EditMode.program
  | EditMode.splits, EditMode.splits => true
  | _, _ => false
  end.

Definition setSplits (f : list Split.t -> list Split.t) (st : t) : t :=
  mk (f (splits st)) (editMode st) (selectedDay st) (selectedSplit st)
     (selectedSplitDetail st).

Definition toggleProgramEditMode (st : t) : t :=
  match editMode st with
  | EditMode.program =>
      mk (splits st) EditMode.none None None (selectedSplitDetail st)
  | EditMode.none =>
      mk (splits st) EditMode.program (selectedDay st) (selectedSplit st)
         (selectedSplitDetail st)
  | EditMode.splits => st
  end.

Definition toggleSplitsEditMode (st : t) : t :=
  match editMode st with
  | EditMode.splits =>
      mk (splits st) EditMode.none (selectedDay st) (selectedSplit st)
         (selectedSplitDetail st)
  | EditMode.none =>
      mk (splits st) EditMode.splits (selectedDay st) (selectedSplit st)
         (selectedSplitDetail st)
  | EditMode.program => st
  end.

Definition handleDaySelect (day : string) (st : t) : t :=
  if negb (isMode (editMode st) EditMode.program) then st
  else
    match selectedDay st with
    | Some d =>
        if String.eqb d day
        then mk (splits st) (editMode st) None None (selectedSplitDetail st)
        else mk (splits st) (editMode st) (Some day) (selectedSplit st)
                (selectedSplitDetail st)
    | None =>
        mk (splits st) (editMode st) (Some day) (selectedSplit st)
           (selectedSplitDetail st)
    end.

(** [{ ...s, days: s.days.filter(d => d !== selectedDay) }] *)
Definition removeDay (selectedDay : string) (s : Split.t) : Split.t :=
  Split.mk (Split.id s) (Split.name s)
    (filter (fun d => negb (String.eqb d selectedDay)) (Split.days s))
    (Split.color s) (Split.exercises s).

(** [{ ...s, days: [...s.days, selectedDay] }] *)
Definition addDay (selectedDay : string) (s : Split.t) : Split.t :=
  Split.mk (Split.id s) (Split.name s) (Split.days s ++ [selectedDay])
    (Split.color s) (Split.exercises s).

(** The updater [handleSplitSelect] passes to [setSplits]. *)
Definition assignDay (selectedDay : string) (split : Split.t)
  (prevSplits : list Split.t) : list Split.t :=
  let updatedSplits := map (removeDay selectedDay) prevSplits in
  map (fun s =>
         if String.eqb (Split.id s) (Split.id split)
         then addDay selectedDay s else s)
      updatedSplits.

Definition handleSplitSelect (split : Split.t) (st : t) : t :=
  if negb (truthy (selectedDay st))
     || negb (isMode (editMode st) EditMode.program)
  then st
  else
    match selectedDay st with
    | Some day =>
        mk (assignDay day split (splits st)) (editMode st) None None
           (selectedSplitDetail st)
    | None => st
    end.

Definition handleSplitPress (split : Split.t) (st : t) : t :=
  if truthy (selectedDay st) && isMode (editMode st) EditMode.program
  then handleSplitSelect split st
  else if isMode (editMode st) EditMode.none
  then mk (splits st) (editMode st) (selectedDay st) (selectedSplit st)
          (Some split)
  else st.

Definition handleSplitNameEdit (splitId newName : string) (st : t) : t :=
  if negb (isMode (editMode st) EditMode.splits) then st
  else
    setSplits
      (map (fun split =>
              if String.eqb (Split.id split) splitId
              then Split.mk (Split.id split) newName (Split.days split)
                     (Split.color split) (Split.exercises split)
              else split))
      st.

Definition handleColorSelect (splitId color : string) (st : t) : t :=
  if negb (isMode (editMode st) EditMode.splits) then st
  else
    setSplits
      (map (fun split =>
              if String.eqb (Split.id split) splitId
              then Split.mk (Split.id split) (Split.name split)
                     (Split.days split) (Some color) (Split.exercises split)
              else split))
      st.

(** [newSplit] of [handleAddSplit]; [now] is what [Date.now()] returns. *)
Definition newSplit (now : Z) : Split.t :=
  Split.mk (numberToString now) "" [] None [].

Definition handleAddSplit (now : Z) (st : t) : t :=
  if negb (isMode (editMode st) EditMode.splits) then st
  else if Nat.leb 7 (List.length (splits st)) then st
  else setSplits (fun prevSplits => prevSplits ++ [newSplit now]) st.

Definition handleDeleteSplit (splitId : string) (st : t) : t :=
  if negb (isMode (editMode st) EditMode.splits) then st
  else
    setSplits
      (filter (fun split => negb (String.eqb (Split.id split) splitId))) st.

Definition handleSplitDetailUpdate (updatedSplit : Split.t) (st : t) : t :=
  setSplits
    (map (fun split =>
            if String.eqb (Split.id split) (Split.id updatedSplit)
            then updatedSplit else split))
    st.

Definition handleSplitDetailClose (st : t) : t :=
  mk (splits st) (editMode st) (selectedDay st) (selectedSplit st) None.

(** The user events of the screen that reach the schedule. *)
Inductive event :=
| ToggleProgramEditMode
| ToggleSplitsEditMode
| DaySelect (day : string)
| SplitPress (split : Split.t)
| SplitNameEdit (splitId newName : string)
| ColorSelect (splitId color : string)
| AddSplit (now : Z)
| DeleteSplit (splitId : string)
| SplitDetailUpdate (updatedSplit : Split.t)
| SplitDetailClose.

Definition handle (st : t) (ev : event) : t :=
  match ev with
  | ToggleProgramEditMode => toggleProgramEditMode st
  | ToggleSplitsEditMode => toggleSplitsEditMode st
  | DaySelect day => handleDaySelect day st
  | SplitPress split => handleSplitPress split st
  | SplitNameEdit splitId newName => handleSplitNameEdit splitId newName st
  | ColorSelect splitId color => handleColorSelect splitId color st
  | AddSplit now => handleAddSplit now st
  | DeleteSplit splitId => handleDeleteSplit splitId st
  | SplitDetailUpdate updatedSplit => handleSplitDetailUpdate updatedSplit st
  | SplitDetailClose => handleSplitDetailClose st
  end.

Definition run (events : list event) (st : t) : t :=
  fold_left handle events st.

End WorkoutScreen.

(* ------------------------------------------------------------------ *)
(** ** Split detail: [handleAddExercise] and [handleRemoveExercise] *)

Module SplitDetailScreen.

(** [interface ExerciseWithDetails]; the logged sets are only carried
    around, so their type is left open. *)
Record ExerciseWithDetails (SetT : Type) := mkExercise
  { id : string;
    name : string;
    bodyPart : string;
    splitIds : list string;
    sets : list SetT }.
Arguments mkExercise {SetT}.
Arguments id {SetT}.
Arguments name {SetT}.
Arguments bodyPart {SetT}.
Arguments splitIds {SetT}.
Arguments sets {SetT}.

(** [route.params.split], the [exercises] cell and the [splits] of the
    data context. *)
Record t (SetT : Type) := mk
  { split : Split.t;
    exercises : list (ExerciseWithDetails SetT);
    isEditing : bool;
    splits : list Split.t }.
Arguments mk {SetT}.
Arguments split {SetT}.
Arguments exercises {SetT}.
Arguments isEditing {SetT}.
Arguments splits {SetT}.

Section Handlers.
Context {SetT : Type}.

Definition convertToWorkoutExercise (split : Split.t)
  (exercise : ExerciseRef.t) : ExerciseWithDetails SetT :=
  mkExercise (ExerciseRef.id exercise) (ExerciseRef.name exercise)
    (ExerciseRef.bodyPart exercise) [Split.id split] [].

(** An element of the screen's list seen at the element type of
    [Split.exercises]. *)
Definition asRef (e : ExerciseWithDetails SetT) : ExerciseRef.t :=
  ExerciseRef.mk (id e) (name e) (bodyPart e).

(** [splits.map(splitItem => splitItem.id === split.id
      ? { ...split, exercises: list } : splitItem)] *)
Definition replaceExercises (split : Split.t)
  (exerciseList : list (ExerciseWithDetails SetT)) (splits : list Split.t)
  : list Split.t :=
  map (fun splitItem =>
         if String.eqb (Split.id splitItem) (Split.id split)
         then Split.mk (Split.id split) (Split.name split)
                (Split.days split) (Split.color split)
                (map asRef exerciseList)
         else splitItem)
      splits.

(** [resolved] tells whether the awaited calls to the backend resolved;
    when one rejects, the handler stops before [updateSplits]. *)
Definition handleAddExercise (resolved : bool)
  (newExercises : list ExerciseRef.t) (st : t SetT) : t SetT :=
  let newSelectedWorkoutExercises :=
    map (convertToWorkoutExercise (split st)) newExercises in
  let list := exercises st ++ newSelectedWorkoutExercises in
  let updatedSplits := replaceExercises (split st) list (splits st) in
  mk (split st) (exercises st ++ newSelectedWorkoutExercises)
     (isEditing st) (if resolved then updatedSplits else splits st).

Fixpoint removeAt {A : Type} (index : nat) (l : list A) : list A :=
  match l, index with
  | [], _ => []
  | _ :: rest, O => rest
  | x :: rest, S i => x :: removeAt i rest
  end.

Definition handleRemoveExercise (resolved : bool) (index : nat)
  (st : t SetT) : t SetT :=
  let updatedExercises := removeAt index (exercises st) in
  let updatedSplits :=
    replaceExercises (split st) updatedExercises (splits st) in
  mk (split st) updatedExercises (isEditing st)
     (if resolved then updatedSplits else splits st).
End Handlers.

End SplitDetailScreen.

(* ------------------------------------------------------------------ *)
(** ** Persistence bridge: [debouncedSave] over a timer queue *)

Module Persistence.

(** A pending [setTimeout]: its handle (a positive number, hence truthy),
    the time it is due and the [data] its callback closes over. *)
Record Timer := mkTimer
  { handle : positive; due : Z; data : list Split.t }.

(** The clock, the timer queue (ordered by due time), [saveTimeoutRef],
    [isInitialLoadRef] and the log of calls to [storageService.saveSplits]
    with the time of each call. *)
Record t := mk
  { now : Z;
    nextHandle : positive;
    pending : list Timer;
    saveTimeoutRef : option positive;
    isInitialLoadRef : bool;
    saved : list (Z * list Split.t) }.

Definition window : Z := 500.

(** The screen once the initial load has completed. *)
Definition loaded : t := mk 0 1 [] None false [].

Definition clearTimeout (h : positive) (timers : list Timer) : list Timer :=
  filter (fun tm => negb (Pos.eqb (handle tm) h)) timers.

Fixpoint enqueue (tm : Timer) (timers : list Timer) : list Timer :=
  match timers with
  | [] => [tm]
  | tm' :: rest =>
      if (due tm' <=? due tm)%Z then tm' :: enqueue tm rest
      else tm :: timers
  end.

Definition debouncedSave (data : list Split.t) (st : t) : t :=
  let cleared :=
    match saveTimeoutRef st with
    | Some h => clearTimeout h (pending st)
    | None => pending st
    end in
  let h := nextHandle st in
  mk (now st) (Pos.succ h)
     (enqueue (mkTimer h (now st + window) data) cleared)
     (Some h) (isInitialLoadRef st) (saved st).

(** The effect that runs when [splits] has changed. *)
Definition saveEffect (splits : list Split.t) (st : t) : t :=
  if isInitialLoadRef st then st else debouncedSave splits st.

(** The event loop reaches [time]: the timers due by then fire in
    order, each calling [storageService.saveSplits(data)]. *)
Definition advance (time : Z) (st : t) : t :=
  let fired := filter (fun tm => (due tm <=? time)%Z) (pending st) in
  mk time (nextHandle st)
     (filter (fun tm => negb (due tm <=? time)%Z) (pending st))
     (saveTimeoutRef st) (isInitialLoadRef st)
     (saved st ++ map (fun tm => (due tm, data tm)) fired).

(** A mutation of the schedule at time [fst m] leaving it at [snd m]. *)
Definition mutation (st : t) (m : Z * list Split.t) : t :=
  saveEffect (snd m) (advance (fst m) st).

Definition run (mutations : list (Z * list Split.t)) (until : Z) : t :=
  advance until (fold_left mutation mutations loaded).

(** The saves the specification expects: a mutation is written, one
    window later, when no other mutation came before the window ended. *)
Fixpoint coalesced (mutations : list (Z * list Split.t)) (until : Z)
  : list (Z * list Split.t) :=
  match mutations with
  | [] => []
  | (t, d) :: rest =>
      let next := match rest with [] => until | (t', _) :: _ => t' end in
      (if (t + window <=? next)%Z then [((t + window)%Z, d)] else [])
      ++ coalesced rest until
  end.

(** [saveTimeoutRef] refers to the only pending timer, which is due one
    window after [time] and will save [d]. *)
Definition armed (st : t) (time : Z) (d : list Split.t) : Prop :=
  isInitialLoadRef st = false
  /\ exists h, saveTimeoutRef st = Some h
               /\ pending st = [mkTimer h (time + window) d].

End Persistence.

(* ------------------------------------------------------------------ *)
(** ** The platform's [Date] on calendar date strings *)

(** [new Date(dateString).getDay()] as ECMAScript defines it: a date-only
    string [YYYY-MM-DD] is midnight UTC of that day, and [getDay] is the
    weekday of that instant in local time.  The device's time zone
    ([LocalTZA], in milliseconds) and the result of [Date.parse] on every
    other string are parameters; [None] stands for [NaN]. *)
Module JsDate.

Definition msPerDay : Z := 86400000.

(** [Day(t)] and [WeekDay(t)]: 0 is Sunday. *)
Definition Day (t : Z) : Z := (t / msPerDay)%Z.
Definition WeekDay (t : Z) : Z := ((Day t + 4) mod 7)%Z.

Definition DayFromYear (y : Z) : Z :=
  (365 * (y - 1970) + (y - 1969) / 4 - (y - 1901) / 100 + (y - 1601) / 400)%Z.

Definition InLeapYear (y : Z) : bool :=
  ((y mod 4 =? 0) && (negb (y mod 100 =? 0) || (y mod 400 =? 0)))%Z.

(** Days of the year before month [m] (from 0 for January). *)
Definition daysBeforeMonth (leap : bool) (m : Z) : Z :=
  (nth (Z.to_nat m) [0; 31; 59; 90; 120; 151; 181; 212; 243; 273; 304; 334] 0
   + (if leap && (2 <=? m) then 1 else 0))%Z.

Definition daysInMonth (leap : bool) (m : Z) : Z :=
  (nth (Z.to_nat m) [31; 28; 31; 30; 31; 30; 31; 31; 30; 31; 30; 31] 0
   + (if leap && (m =? 1) then 1 else 0))%Z.

(** [MakeDay(year, month, date)] for a month in 0..11. *)
Definition MakeDay (year month date : Z) : Z :=
  (DayFromYear year + daysBeforeMonth (InLeapYear year) month + date - 1)%Z.

Definition digitValue (c : ascii) : option Z :=
  let n := N_of_ascii c in
  if ((48 <=? n) && (n <=? 57))%N then Some (Z.of_N n - 48)%Z else None.

Definition twoDigitValue (a b : ascii) : option Z :=
  match digitValue a, digitValue b with
  | Some x, Some y => Some (10 * x + y)%Z
  | _, _ => None
  end.

(** The year, month (from 1) and day of a string of the form [YYYY-MM-DD]
    that names a day of the calendar. *)
Definition parseDateOnly (s : string) : option (Z * Z * Z) :=
  match list_ascii_of_string s with
  | [y1; y2; y3; y4; dash1; m1; m2; dash2; d1; d2] =>
      match twoDigitValue y1 y2, twoDigitValue y3 y4,
            twoDigitValue m1 m2, twoDigitValue d1 d2 with
      | Some yh, Some yl, Some m, Some d =>
          let y := (100 * yh + yl)%Z in
          if Ascii.eqb dash1 "-" && Ascii.eqb dash2 "-"
             && (1 <=? m)%Z && (m <=? 12)%Z && (1 <=? d)%Z
             && (d <=? daysInMonth (InLeapYear y) (m - 1))%Z
          then Some (y, m, d) else None
      | _, _, _, _ => None
      end
  | _ => None
  end.

Section Platform.
Variable localTZA : Z -> Z.
Variable parseOther : string -> option Z.

(** The time value of [new Date(dateString)]. *)
Definition parse (dateString : string) : option Z :=
  match parseDateOnly dateString with
  | Some (y, m, d) => Some (MakeDay y (m - 1) d * msPerDay)%Z
  | None => parseOther dateString
  end.

Definition LocalTime (t : Z) : Z := (t + localTZA t)%Z.

Definition getDay (dateString : string) : option nat :=
  match parse dateString with
  | Some t => Some (Z.to_nat (WeekDay (LocalTime t)))
  | None => None
  end.
End Platform.

(** A device on UTC, and one five hours west of it. *)
Definition utc (t : Z) : Z := 0%Z.
Definition fiveHoursWest (t : Z) : Z := (-18000000)%Z.
Definition unparsed (s : string) : option Z := None.

End JsDate.

(* ------------------------------------------------------------------ *)
(** ** Session log: the lookups of [ProgressScreen] *)

(** A value that may be [null] or [undefined]. *)
Inductive nullable (A : Type) : Type :=
| JsNull
| JsUndefined
| JsValue (a : A).
Arguments JsNull {A}.
Arguments JsUndefined {A}.
Arguments JsValue {A} a.

Definition isEmpty {A} (v : nullable A) : bool :=
  match v with JsValue _ => false | _ => true end.

(** [a > b] on strings: lexicographic on the code units. *)
Definition stringGt (a b : string) : bool :=
  match String.compare a b with Gt => true | _ => false end.

(** [s.padStart(2, "0")] *)
Definition padStart2 (s : string) : string :=
  match String.length s with
  | O => "00"
  | S O => String "0" s
  | _ => s
  end.

Module ProgressScreen.

(** [interface WorkoutSession]. *)
Record WorkoutSession := mkSession { date : string; completed : bool }.

(** What [today = new Date()] reports: [getFullYear()], [getMonth()]
    (from 0) and [getDate()]. *)
Record Today := mkToday { fullYear : Z; month : Z; dayOfMonth : Z }.

Record t := mk
  { splits : list Split.t;
    workoutDays : list WorkoutSession;
    workouts : list WorkoutSession;
    selectedDate : option string;
    today : Today }.

Definition days : list string :=
  ["Sun"; "Mon"; "Tue"; "Wed"; "Thu"; "Fri"; "Sat"].

Definition todayString (st : t) : string :=
  (numberToString (fullYear (today st)) ++ "-"
   ++ padStart2 (numberToString (month (today st) + 1)) ++ "-"
   ++ padStart2 (numberToString (dayOfMonth (today st))))%string.

Definition isFutureDate (st : t) : bool :=
  match selectedDate st with
  | Some d => if String.eqb d "" then false else stringGt d (todayString st)
  | None => false
  end.

Section Lookup.
(** [new Date(dateString).getDay()] of the platform, in the device's
    time zone; [None] stands for [NaN]. *)
Variable getDay : string -> option nat.

Definition getDayOfWeek (dateString : option string) : nullable string :=
  match dateString with
  | None => JsNull
  | Some s =>
      if String.eqb s "" then JsNull
      else
        match getDay s with
        | Some n =>
            match nth_error days n with
            | Some d => JsValue d
            | None => JsUndefined
            end
        | None => JsUndefined
        end
  end.

Definition getScheduledSplit (splits : list Split.t)
  (dayOfWeek : nullable string) : nullable Split.t :=
  match dayOfWeek with
  | JsValue d =>
      if String.eqb d "" then JsNull
      else
        match find (fun split => includes d (Split.days split)) splits with
        | Some split => JsValue split
        | None => JsUndefined
        end
  | _ => JsNull
  end.

(** [selectedDate || todayString] *)
Definition shownDate (st : t) : string :=
  match selectedDate st with
  | Some d => if String.eqb d "" then todayString st else d
  | None => todayString st
  end.

Definition scheduledSplit (st : t) : nullable Split.t :=
  let dayOfWeek := getDayOfWeek (Some (shownDate st)) in
  getScheduledSplit (splits st) dayOfWeek.
End Lookup.

(** The calendar's date strings: [YYYY-MM-DD]. *)
Definition isoDate (y m d : Z) : string :=
  (numberToString y ++ "-" ++ padStart2 (numberToString m) ++ "-"
   ++ padStart2 (numberToString d))%string.

(** [(y, m, d)] is a later calendar day than [(y', m', d')]. *)
Definition later (y m d y' m' d' : Z) : Prop :=
  (y' < y \/ (y' = y /\ (m' < m \/ (m' = m /\ d' < d))))%Z.

End ProgressScreen.

(* ------------------------------------------------------------------ *)
(** ** What the specification says the derivation computes *)

Section FirstSeen.
Context {A : Type} (key : A -> string).

(** The elements of [l] whose key has not occurred before, in order. *)
Fixpoint firstSeen (l : list A) : list A :=
  match l with
  | [] => []
  | x :: xs =>
      x :: filter (fun y => negb (String.eqb (key y) (key x))) (firstSeen xs)
  end.

Definition hasKey (k : string) (l : list A) : bool :=
  existsb (fun y => String.eqb (key y) k) l.
End FirstSeen.

(** The ids of the splits whose exercise list contains [eid], in split
    order, each once. *)
Definition owners (eid : string) (splitsData : list Split.t) : list string :=
  firstSeen (fun sid => sid)
    (map Split.id
       (filter (fun s => hasKey ExerciseRef.id eid (Split.exercises s))
          splitsData)).

(** The roster in the specification's words: one entry per exercise id, in
    first-seen order, carrying the union of the owning split ids. *)
Definition rosterSpec (splitsData : list Split.t) : list Exercise.t :=
  map (fun r => Exercise.mk (ExerciseRef.id r) (ExerciseRef.name r)
                  (ExerciseRef.bodyPart r)
                  (owners (ExerciseRef.id r) splitsData))
      (firstSeen ExerciseRef.id (flat_map Split.exercises splitsData)).

(** The grouping in the specification's words: one group per body part, in
    first-seen order, each holding the roster's exercises of that body part
    in roster order. *)
Definition groupSpec (roster : list Exercise.t)
  : list (string * list Exercise.t) :=
  map (fun bp =>
         (bp, filter (fun e => String.eqb (Exercise.bodyPart e) bp) roster))
      (firstSeen (fun bp => bp) (map Exercise.bodyPart roster)).

(** Inputs on which the grouping object behaves as a plain map. *)
Definition noInheritedBodyPart (splitsData : list Split.t) : bool :=
  forallb (fun r => negb (JsObject.inherited (ExerciseRef.bodyPart r)))
    (flat_map Split.exercises splitsData).

(** Schedules whose exercises come from the catalog's body parts. *)
Definition catalogBodyParts (splitsData : list Split.t) : bool :=
  forallb (fun r => includes (ExerciseRef.bodyPart r) BODY_PARTS)
    (flat_map Split.exercises splitsData).

Definition noIndexBodyPart (splitsData : list Split.t) : bool :=
  forallb (fun r => negb (JsObject.isArrayIndex (ExerciseRef.bodyPart r)))
    (flat_map Split.exercises splitsData).

(* ------------------------------------------------------------------ *)
(** ** Auxiliary definitions of the proofs *)

(** The (split, exercise) pairs in the order the nested loops visit them. *)
Definition occurrences (splitsData : list Split.t)
  : list (Split.t * ExerciseRef.t) :=
  flat_map (fun s => map (pair s) (Split.exercises s)) splitsData.

Definition visit (acc : list Exercise.t) (p : Split.t * ExerciseRef.t) :=
  forEachExercise (fst p) acc (snd p).

Definition ownersAmong (eid : string) (ps : list (Split.t * ExerciseRef.t))
  : list string :=
  firstSeen (fun sid => sid)
    (map (fun p => Split.id (fst p))
       (filter (fun p => String.eqb (ExerciseRef.id (snd p)) eid) ps)).

Definition rosterEntry (ps : list (Split.t * ExerciseRef.t)) (r : ExerciseRef.t) :=
  Exercise.mk (ExerciseRef.id r) (ExerciseRef.name r) (ExerciseRef.bodyPart r)
    (ownersAmong (ExerciseRef.id r) ps).

Definition rosterAmong (ps : list (Split.t * ExerciseRef.t)) :=
  map (rosterEntry ps) (firstSeen ExerciseRef.id (map snd ps)).

Definition pushExercise (e : Exercise.t) (kv : string * list Exercise.t) :=
  (fst kv, snd kv ++ [e]).

Definition mkSection (g : string * list Exercise.t) : BodyPartSectionData.t :=
  BodyPartSectionData.mk (fst g) (fst g) (snd g).

Definition allOwn (roster : list Exercise.t) : bool :=
  forallb (fun e => negb (JsObject.inherited (Exercise.bodyPart e))) roster.

(** What the updater of [handleSplitSelect] does to one split. *)
Definition reassigned (day : string) (split s : Split.t) : Split.t :=
  if String.eqb (Split.id s) (Split.id split)
  then WorkoutScreen.addDay day (WorkoutScreen.removeDay day s)
  else WorkoutScreen.removeDay day s.

(** Decimal digits, for the date strings. *)
Definition digitChar (n : Z) : ascii := ascii_of_N (Z.to_N (48 + n)).

Definition fourDigits (y : Z) : string :=
  String (digitChar (y / 1000))
    (String (digitChar (y / 100 mod 10))
       (String (digitChar (y / 10 mod 10))
          (String (digitChar (y mod 10)) ""))).

Definition twoDigits (n : Z) : string :=
  String (digitChar (n / 10)) (String (digitChar (n mod 10)) "").

Definition upTo (lo count : Z) : list Z :=
  map (fun i => (lo + Z.of_nat i)%Z) (seq 0 (Z.to_nat count)).

(** Comparison of calendar days, most significant part first. *)
Definition compareDays (y m d y' m' d' : Z) : comparison :=
  match (y ?= y')%Z with
  | Eq => match (m ?= m')%Z with Eq => (d ?= d')%Z | c => c end
  | c => c
  end.

(* ------------------------------------------------------------------ *)
(** ** Example states *)

(** A schedule in which Monday belongs to split A, as the editor sees it
    with Monday selected. *)
Definition mondaySelected : WorkoutScreen.t :=
  WorkoutScreen.mk [splitA; splitB] EditMode.program (Some "Mon") None None.

(** Program edit mode with Monday selected, split A training on Monday,
    Tuesday and Thursday. *)
Definition threeDayWeek : WorkoutScreen.t :=
  WorkoutScreen.mk
    [Split.mk "A" "Push" ["Mon"; "Tue"; "Thu"] None [chest1]; splitB]
    EditMode.program (Some "Mon") None None.

(** The editor in splits edit mode, holding one split created at clock
    reading 1700000000000. *)
Definition oneTimestamped : WorkoutScreen.t :=
  WorkoutScreen.mk [Split.mk "1700000000000" "Push" [] None []]
    EditMode.splits None None None.

Definition emptyEditor : WorkoutScreen.t :=
  WorkoutScreen.mk [] EditMode.splits None None None.

(** The detail screen of split A, which lists chest-1. *)
Definition splitADetail : SplitDetailScreen.t unit :=
  SplitDetailScreen.mk splitA
    [SplitDetailScreen.convertToWorkoutExercise splitA chest1] true
    [splitA; splitB].

(** The detail screen of split A as it mounts: its own list is still the
    initial [[]] of [useState] while the schedule entry lists chest-1. *)
Definition splitAOpened : SplitDetailScreen.t unit :=
  SplitDetailScreen.mk splitA [] true [splitA; splitB].

(** A loaded schedule in which Monday belongs to two splits. *)
Definition mondayTwice : list Split.t :=
  [splitB; splitA; Split.mk "C" "Pull" ["Mon"; "Fri"] None []].

(** The progress screen on 2 November 2026 with 9 November selected. *)
Definition nextMonday : ProgressScreen.t :=
  ProgressScreen.mk [splitA; splitB] [] [] (Some "2026-11-09")
    (ProgressScreen.mkToday 2026 10 2).

(** A schedule with a Sunday split and a Monday split, and the progress
    screen showing it with Monday 9 November 2026 selected. *)
Definition sundaySplit : Split.t := Split.mk "S" "Rest" ["Sun"] None [].

Definition sundayMonday : ProgressScreen.t :=
  ProgressScreen.mk [sundaySplit; splitA] [] [] (Some "2026-11-09")
    (ProgressScreen.mkToday 2026 10 2).

(* ------------------------------------------------------------------ *)
(** ** Further parts of the screens *)

(** [c || fallback] on an optional color string. *)
Definition orColor (c : option string) (fallback : string) : string :=
  match c with
  | Some c => if String.eqb c "" then fallback else c
  | None => fallback
  end.

(** [toggleExerciseExpansion] of [WorkoutScreen], on the [expandedExercises]
    cell. *)
Definition toggleExerciseExpansion (editMode : EditMode.t)
  (exerciseId : string) (prev : list string) : list string :=
  if negb (WorkoutScreen.isMode editMode EditMode.none) then prev
  else if includes exerciseId prev
  then filter (fun id => negb (String.eqb id exerciseId)) prev
  else prev ++ [exerciseId].

(** [dayAssignments[day]] of [ExerciseItem]. *)
Definition dayAssignments (splits : list Split.t) (exercise : Exercise.t)
  (day : string) : bool :=
  existsb
    (fun splitId =>
       match find (fun s => String.eqb (Split.id s) splitId) splits with
       | Some split => includes day (Split.days split)
       | None => false
       end)
    (Exercise.splitIds exercise).

(** [daySplits] and [color] of [WeekdayItem]. *)
Definition daySplits (day : string) (splits : list Split.t) : list Split.t :=
  filter (fun split => includes day (Split.days split)) splits.

Definition weekdayColor (day : string) (splits : list Split.t) : string :=
  match daySplits day splits with
  | first :: _ => orColor (Split.color first) "#3A3E48"
  | [] => "#3A3E48"
  end.

(** The cleanup effect of [WorkoutScreen]: the timer in [saveTimeoutRef] is
    cleared on unmount. *)
Definition unmount (st : Persistence.t) : Persistence.t :=
  match Persistence.saveTimeoutRef st with
  | Some h =>
      Persistence.mk (Persistence.now st) (Persistence.nextHandle st)
        (Persistence.clearTimeout h (Persistence.pending st))
        (Persistence.saveTimeoutRef st) (Persistence.isInitialLoadRef st)
        (Persistence.saved st)
  | None => st
  end.


(** [loadSplits] of [WorkoutScreen]: what each call to the storage service
    gave, and the cells the effect writes. *)
Module Loading.


Record t := mk
  { splits : list Split.t;
    exercises : list Exercise.t;
    isInitialLoadRef : bool }.




End Loading.


(** A weekday belongs to at most one split, and to it once. *)
Definition exclusiveDays (splits : list Split.t) : Prop :=
  NoDup (flat_map Split.days splits).

(** What the derivation reads of a split. *)
Definition rosterView (s : Split.t) : string * list ExerciseRef.t :=
  (Split.id s, Split.exercises s).

(** The events that may change the schedule in each edit mode. *)
Definition mayEdit (m : EditMode.t) (ev : WorkoutScreen.event) : bool :=
  match ev, m with
  | WorkoutScreen.SplitDetailUpdate _, _ => true
  | WorkoutScreen.SplitPress _, EditMode.program => true
  | WorkoutScreen.SplitNameEdit _ _, EditMode.splits
  | WorkoutScreen.ColorSelect _ _, EditMode.splits
  | WorkoutScreen.AddSplit _, EditMode.splits
  | WorkoutScreen.DeleteSplit _, EditMode.splits => true
  | _, _ => false
  end.

(** The screen as it mounts: no splits loaded into it yet, no edit mode. *)
Definition initialScreen (splits : list Split.t) : WorkoutScreen.t :=
  WorkoutScreen.mk splits EditMode.none None None None.

(* ------------------------------------------------------------------ *)
(** ** List lemmas *)

Section ListFacts.
Context {A : Type}.

Lemma filter_filter (p q : A -> bool) (l : list A) :
  filter p (filter q l) = filter (fun x => q x && p x) l.
Proof.
  induction l as [|x l IH]; simpl; [reflexivity|].
  destruct (q x); simpl; [destruct (p x)|]; now rewrite IH.
Qed.

Lemma filter_all (p : A -> bool) (l : list A) :
  (forall x, In x l -> p x = true) -> filter p l = l.
Proof.
  induction l as [|x l IH]; simpl; intros H; [reflexivity|].
  rewrite (H x (or_introl eq_refl)). f_equal. apply IH. auto.
Qed.

Lemma filter_none (p : A -> bool) (l : list A) :
  (forall x, In x l -> p x = false) -> filter p l = [].
Proof.
  induction l as [|x l IH]; simpl; intros H; [reflexivity|].
  rewrite (H x (or_introl eq_refl)). apply IH. auto.
Qed.

Lemma existsb_false_iff (p : A -> bool) (l : list A) :
  existsb p l = false <-> (forall x, In x l -> p x = false).
Proof.
  induction l as [|x l IH]; simpl.
  - split; [intros _ y []|reflexivity].
  - rewrite orb_false_iff, IH. split.
    + intros [Hx Hl] y [<-|Hy]; auto.
    + intros H. split; auto.
Qed.

Lemma existsb_ext_in (p q : A -> bool) (l : list A) :
  (forall x, In x l -> p x = q x) -> existsb p l = existsb q l.
Proof.
  induction l as [|x l IH]; simpl; intros H; [reflexivity|].
  rewrite (H x (or_introl eq_refl)), IH; auto.
Qed.

Lemma existsb_map {B} (g : B -> A) (p : A -> bool) (l : list B) :
  existsb p (map g l) = existsb (fun x => p (g x)) l.
Proof.
  induction l as [|x l IH]; simpl; [reflexivity|]. now rewrite IH.
Qed.

Lemma flat_map_ext_in {B} (f g : A -> list B) (l : list A) :
  (forall x, In x l -> f x = g x) -> flat_map f l = flat_map g l.
Proof.
  induction l as [|x l IH]; simpl; intros H; [reflexivity|].
  rewrite (H x (or_introl eq_refl)), IH; auto.
Qed.

Lemma find_none_existsb (p : A -> bool) (l : list A) :
  find p l = None <-> existsb p l = false.
Proof.
  induction l as [|x l IH]; simpl; [tauto|].
  destruct (p x); simpl; [split; discriminate|exact IH].
Qed.

Lemma NoDup_map_filter (key : A -> string) (keep : A -> bool) (l : list A)
  (Hnd : NoDup (map key l)) :
  NoDup (map key (filter keep l)).
Proof.
  revert Hnd. induction l as [|x l IH]; simpl; intros H; [constructor|].
  inversion H as [|? ? Hx Hl]; subst.
  destruct (keep x); simpl; auto.
  constructor; auto. intros Hin. apply Hx.
  apply in_map_iff in Hin as (y & Hy & Hyin).
  apply filter_In in Hyin as [Hyin _].
  rewrite <- Hy. now apply in_map.
Qed.

Lemma NoDup_map_eq {B} (f : A -> B) (l : list A) (x y : A) :
  NoDup (map f l) -> In x l -> In y l -> f x = f y -> x = y.
Proof.
  induction l as [|a l IH]; simpl; intros H Hx Hy Hf; [contradiction|].
  inversion H as [|? ? Ha Hl]; subst.
  destruct Hx as [<-|Hx], Hy as [<-|Hy]; auto.
  - exfalso. apply Ha. rewrite Hf. now apply in_map.
  - exfalso. apply Ha. rewrite <- Hf. now apply in_map.
Qed.

(** With unique keys, updating the found element is a pointwise update. *)
Lemma mutateFound_map (key : A -> string) (k : string) (f : A -> A)
  (l : list A) :
  NoDup (map key l) ->
  (forall x, key (f x) = key x) ->
  mutateFound (fun x => String.eqb (key x) k) f l
  = map (fun x => if String.eqb (key x) k then f x else x) l.
Proof.
  intros Hnd Hf.
  induction l as [|x l IH]; simpl; [reflexivity|].
  inversion Hnd as [|? ? Hx Hl]; subst.
  destruct (String.eqb (key x) k) eqn:E.
  - f_equal. apply String.eqb_eq in E.
    rewrite <- (map_id l) at 1. apply map_ext_in.
    intros y Hy. destruct (String.eqb (key y) k) eqn:E'; [|reflexivity].
    apply String.eqb_eq in E'. exfalso. apply Hx.
    rewrite E, <- E'. now apply in_map.
  - f_equal. now apply IH.
Qed.
End ListFacts.

Section FirstSeenFacts.
Context {A : Type} (key : A -> string).

Lemma hasKey_false_iff k (l : list A) :
  hasKey key k l = false <-> (forall x, In x l -> String.eqb (key x) k = false).
Proof. apply existsb_false_iff. Qed.

Lemma hasKey_true_iff k (l : list A) :
  hasKey key k l = true <-> In k (map key l).
Proof.
  unfold hasKey. rewrite existsb_exists, in_map_iff.
  split; intros (x & H1 & H2).
  - exists x. apply String.eqb_eq in H2. auto.
  - exists x. split; [assumption|]. now apply String.eqb_eq.
Qed.

Lemma firstSeen_snoc (l : list A) (x : A) :
  firstSeen key (l ++ [x])
  = if hasKey key (key x) l then firstSeen key l else firstSeen key l ++ [x].
Proof.
  induction l as [|a l IH]; simpl; [reflexivity|].
  rewrite IH. destruct (hasKey key (key x) l) eqn:E.
  - now rewrite orb_true_r.
  - rewrite orb_false_r, filter_app. simpl.
    rewrite (String.eqb_sym (key x) (key a)).
    destruct (String.eqb (key a) (key x)); simpl; [now rewrite app_nil_r|reflexivity].
Qed.

Lemma firstSeen_incl (l : list A) (x : A) : In x (firstSeen key l) -> In x l.
Proof.
  induction l as [|a l IH]; simpl; [tauto|].
  intros [H|H]; [now left|]. apply filter_In in H as [H _]. right. auto.
Qed.

Lemma hasKey_filter_other k k' (l : list A) :
  k' <> k ->
  hasKey key k (filter (fun y => negb (String.eqb (key y) k')) l)
  = hasKey key k l.
Proof.
  intros Hk. unfold hasKey.
  induction l as [|b m IH]; simpl; [reflexivity|].
  destruct (String.eqb (key b) k') eqn:E; simpl.
  - apply String.eqb_eq in E. rewrite E.
    apply String.eqb_neq in Hk. now rewrite Hk.
  - now rewrite IH.
Qed.

Lemma firstSeen_hasKey k (l : list A) :
  hasKey key k (firstSeen key l) = hasKey key k l.
Proof.
  induction l as [|a l IH]; [reflexivity|].
  change (hasKey key k (firstSeen key (a :: l)))
    with (String.eqb (key a) k
          || hasKey key k
               (filter (fun y => negb (String.eqb (key y) (key a)))
                  (firstSeen key l))).
  change (hasKey key k (a :: l)) with (String.eqb (key a) k || hasKey key k l).
  destruct (String.eqb (key a) k) eqn:E; simpl; [reflexivity|].
  rewrite hasKey_filter_other; [exact IH|].
  now apply String.eqb_neq.
Qed.

Lemma firstSeen_NoDup (l : list A) : NoDup (map key (firstSeen key l)).
Proof.
  induction l as [|a l IH]; simpl; [constructor|].
  constructor.
  - intros Hin. apply in_map_iff in Hin as (y & Hy & Hyin).
    apply filter_In in Hyin as [_ Hneq].
    rewrite Hy, String.eqb_refl in Hneq. discriminate.
  - now apply NoDup_map_filter.
Qed.
End FirstSeenFacts.

(* ------------------------------------------------------------------ *)
(** ** The first [reduce] computes the specified roster *)

Module Roster.

Lemma includes_hasKey x l : includes x l = hasKey (fun y => y) x l.
Proof.
  unfold includes, hasKey. apply existsb_ext_in. intros y _.
  apply String.eqb_sym.
Qed.

Lemma dedupe_visit splitsData acc :
  fold_left
    (fun acc split =>
       fold_left (forEachExercise split) (Split.exercises split) acc)
    splitsData acc
  = fold_left visit (occurrences splitsData) acc.
Proof.
  revert acc. induction splitsData as [|s ss IH]; intros acc; [reflexivity|].
  simpl. rewrite fold_left_app, IH. f_equal.
  generalize (Split.exercises s) acc. clear.
  intros exs. induction exs as [|r exs IH]; intros acc; [reflexivity|].
  simpl. now rewrite IH.
Qed.

(** With unique ids in the accumulator, one visit is a pointwise update or
    an append. *)
Lemma forEachExercise_pointwise s acc r :
  NoDup (map Exercise.id acc) ->
  forEachExercise s acc r
  = if hasKey Exercise.id (ExerciseRef.id r) acc
    then map (fun e =>
                if String.eqb (Exercise.id e) (ExerciseRef.id r)
                then (if includes (Split.id s) (Exercise.splitIds e)
                      then e else pushSplitId (Split.id s) e)
                else e) acc
    else acc ++ [Exercise.mk (ExerciseRef.id r) (ExerciseRef.name r)
                   (ExerciseRef.bodyPart r) [Split.id s]].
Proof.
  intros Hnd. unfold forEachExercise.
  destruct (find _ acc) as [e0|] eqn:Hfind.
  - apply find_some in Hfind as [Hin He0].
    assert (Hk : hasKey Exercise.id (ExerciseRef.id r) acc = true).
    { apply existsb_exists. eauto. }
    rewrite Hk.
    assert (Hsame : forall e, In e acc ->
              String.eqb (Exercise.id e) (ExerciseRef.id r) = true -> e = e0).
    { intros e He Heq. apply (NoDup_map_eq Exercise.id acc); auto.
      apply String.eqb_eq in Heq, He0. congruence. }
    destruct (includes (Split.id s) (Exercise.splitIds e0)) eqn:Hinc; simpl.
    + rewrite <- (map_id acc) at 1. apply map_ext_in. intros e He.
      destruct (String.eqb (Exercise.id e) (ExerciseRef.id r)) eqn:E; auto.
      rewrite (Hsame e He E), Hinc. reflexivity.
    + rewrite (mutateFound_map Exercise.id) by (auto; reflexivity).
      apply map_ext_in. intros e He.
      destruct (String.eqb (Exercise.id e) (ExerciseRef.id r)) eqn:E; auto.
      rewrite (Hsame e He E), Hinc. reflexivity.
  - apply find_none_existsb in Hfind. unfold hasKey. now rewrite Hfind.
Qed.

Lemma ownersAmong_snoc eid ps s r :
  ownersAmong eid (ps ++ [(s, r)])
  = if String.eqb (ExerciseRef.id r) eid
    then (if includes (Split.id s) (ownersAmong eid ps)
          then ownersAmong eid ps
          else ownersAmong eid ps ++ [Split.id s])
    else ownersAmong eid ps.
Proof.
  unfold ownersAmong. rewrite filter_app. simpl.
  destruct (String.eqb (ExerciseRef.id r) eid).
  - rewrite map_app. simpl. rewrite firstSeen_snoc.
    now rewrite includes_hasKey, firstSeen_hasKey.
  - now rewrite app_nil_r.
Qed.

Lemma rosterAmong_ids ps :
  map Exercise.id (rosterAmong ps)
  = map ExerciseRef.id (firstSeen ExerciseRef.id (map snd ps)).
Proof. unfold rosterAmong. rewrite map_map. reflexivity. Qed.

Lemma rosterAmong_NoDup ps : NoDup (map Exercise.id (rosterAmong ps)).
Proof. rewrite rosterAmong_ids. apply firstSeen_NoDup. Qed.

Lemma rosterAmong_hasKey k ps :
  hasKey Exercise.id k (rosterAmong ps)
  = hasKey ExerciseRef.id k (map snd ps).
Proof.
  rewrite <- (firstSeen_hasKey ExerciseRef.id).
  unfold rosterAmong, hasKey. rewrite existsb_map. reflexivity.
Qed.

Lemma rosterAmong_snoc ps s r :
  rosterAmong (ps ++ [(s, r)]) = forEachExercise s (rosterAmong ps) r.
Proof.
  rewrite forEachExercise_pointwise by apply rosterAmong_NoDup.
  rewrite rosterAmong_hasKey.
  unfold rosterAmong at 1. rewrite map_app. simpl. rewrite firstSeen_snoc.
  destruct (hasKey ExerciseRef.id (ExerciseRef.id r) (map snd ps)) eqn:Hk.
  - unfold rosterAmong. rewrite map_map. apply map_ext. intros r'.
    unfold rosterEntry. rewrite ownersAmong_snoc. simpl.
    rewrite (String.eqb_sym (ExerciseRef.id r') (ExerciseRef.id r)).
    destruct (String.eqb (ExerciseRef.id r) (ExerciseRef.id r'));
      [destruct (includes _ _)|]; reflexivity.
  - rewrite map_app. simpl. f_equal.
    + unfold rosterAmong. apply map_ext_in. intros r' Hr'.
      apply firstSeen_incl in Hr'.
      assert (Hne : String.eqb (ExerciseRef.id r) (ExerciseRef.id r') = false).
      { rewrite String.eqb_sym.
        apply (proj1 (hasKey_false_iff ExerciseRef.id _ _) Hk r' Hr'). }
      unfold rosterEntry. now rewrite ownersAmong_snoc, Hne.
    + unfold rosterEntry. rewrite ownersAmong_snoc, String.eqb_refl.
      assert (Hnil : ownersAmong (ExerciseRef.id r) ps = []).
      { unfold ownersAmong. rewrite filter_none; [reflexivity|].
        intros p Hp. apply (proj1 (hasKey_false_iff ExerciseRef.id _ _) Hk).
        now apply in_map. }
      rewrite Hnil. reflexivity.
Qed.

Lemma visit_rosterAmong ps : fold_left visit ps [] = rosterAmong ps.
Proof.
  induction ps as [|[s r] ps IH] using rev_ind; [reflexivity|].
  rewrite fold_left_app. simpl. rewrite IH. unfold visit. simpl.
  symmetry. apply rosterAmong_snoc.
Qed.

Lemma occurrences_refs splitsData :
  map snd (occurrences splitsData) = flat_map Split.exercises splitsData.
Proof.
  induction splitsData as [|s ss IH]; simpl; [reflexivity|].
  rewrite map_app, IH, map_map. simpl. now rewrite map_id.
Qed.

(** A run of equal split ids collapses to one. *)
Lemma firstSeen_run (x : string) (run l : list string) :
  (forall y, In y run -> y = x) ->
  firstSeen (fun sid => sid) (run ++ l)
  = match run with
    | [] => firstSeen (fun sid => sid) l
    | _ :: _ =>
        x :: filter (fun y => negb (String.eqb y x))
               (firstSeen (fun sid => sid) l)
    end.
Proof.
  induction run as [|a run IH]; intros Hrun; [reflexivity|].
  assert (a = x) by (apply Hrun; now left). subst a.
  simpl. f_equal. rewrite IH by (intros y Hy; apply Hrun; now right).
  destruct run; [reflexivity|].
  simpl. rewrite String.eqb_refl. simpl.
  rewrite filter_filter. apply filter_ext. intros y.
  now destruct (String.eqb y x).
Qed.

Lemma ownersAmong_owners eid splitsData :
  ownersAmong eid (occurrences splitsData) = owners eid splitsData.
Proof.
  unfold ownersAmong, owners.
  induction splitsData as [|s ss IH]; [reflexivity|].
  simpl occurrences. rewrite filter_app, map_app.
  rewrite (firstSeen_run (Split.id s)).
  2:{ intros y Hy. apply in_map_iff in Hy as (p & <- & Hp).
      apply filter_In in Hp as [Hp _].
      apply in_map_iff in Hp as (r & <- & _). reflexivity. }
  simpl filter.
  induction (Split.exercises s) as [|r exs IHexs]; simpl.
  - exact IH.
  - destruct (String.eqb (ExerciseRef.id r) eid) eqn:E; simpl.
    + now rewrite IH.
    + exact IHexs.
Qed.

(** The first [reduce] of [processSplitsData] yields the specified roster. *)
Lemma dedupeExercises_spec splitsData :
  dedupeExercises splitsData = rosterSpec splitsData.
Proof.
  unfold dedupeExercises. rewrite dedupe_visit, visit_rosterAmong.
  unfold rosterAmong, rosterSpec. rewrite occurrences_refs.
  apply map_ext. intros r. unfold rosterEntry. now rewrite ownersAmong_owners.
Qed.

End Roster.

(* ------------------------------------------------------------------ *)
(** ** The second [reduce] computes the specified grouping *)

Module Grouping.

Lemma groupStep_pointwise obj e :
  NoDup (map fst obj) ->
  JsObject.inherited (Exercise.bodyPart e) = false ->
  groupStep (Ok obj) e
  = Ok (if hasKey fst (Exercise.bodyPart e) obj
        then map (fun kv =>
                    if String.eqb (fst kv) (Exercise.bodyPart e)
                    then pushExercise e kv else kv) obj
        else obj ++ [(Exercise.bodyPart e, [e])]).
Proof.
  intros Hnd Hinh. unfold groupStep, JsObject.get, JsObject.getOwn.
  destruct (find _ obj) as [kv|] eqn:Hfind; simpl.
  - apply find_some in Hfind as [Hin Hkv].
    assert (Hk : hasKey fst (Exercise.bodyPart e) obj = true).
    { apply existsb_exists. eauto. }
    rewrite Hk. f_equal.
    now apply (mutateFound_map fst).
  - rewrite Hinh. apply find_none_existsb in Hfind.
    unfold hasKey. now rewrite Hfind.
Qed.

Lemma groupSpec_keys roster :
  map fst (groupSpec roster)
  = firstSeen (fun bp => bp) (map Exercise.bodyPart roster).
Proof. unfold groupSpec. rewrite map_map. simpl. apply map_id. Qed.

Lemma groupSpec_NoDup roster : NoDup (map fst (groupSpec roster)).
Proof.
  rewrite groupSpec_keys.
  rewrite <- (map_id (firstSeen _ _)). apply firstSeen_NoDup.
Qed.

Lemma groupSpec_hasKey bp roster :
  hasKey fst bp (groupSpec roster)
  = hasKey Exercise.bodyPart bp roster.
Proof.
  transitivity (hasKey (fun k : string => k) bp (map fst (groupSpec roster))).
  { unfold hasKey. now rewrite existsb_map. }
  rewrite groupSpec_keys, firstSeen_hasKey.
  unfold hasKey. now rewrite existsb_map.
Qed.

Lemma groupSpec_snoc roster e :
  Ok (groupSpec (roster ++ [e])) = groupStep (Ok (groupSpec roster)) e
  \/ JsObject.inherited (Exercise.bodyPart e) = true.
Proof.
  destruct (JsObject.inherited (Exercise.bodyPart e)) eqn:Hinh; [now right|left].
  rewrite groupStep_pointwise by (auto using groupSpec_NoDup).
  f_equal. rewrite groupSpec_hasKey.
  unfold groupSpec at 1. rewrite map_app. simpl. rewrite firstSeen_snoc.
  assert (Hk : hasKey (fun bp => bp) (Exercise.bodyPart e)
                 (map Exercise.bodyPart roster)
               = hasKey Exercise.bodyPart (Exercise.bodyPart e) roster).
  { unfold hasKey. now rewrite existsb_map. }
  rewrite Hk.
  destruct (hasKey Exercise.bodyPart (Exercise.bodyPart e) roster) eqn:Hseen.
  - unfold groupSpec. rewrite map_map. apply map_ext. intros bp. simpl.
    rewrite filter_app. simpl. rewrite (String.eqb_sym bp).
    destruct (String.eqb (Exercise.bodyPart e) bp);
      [reflexivity|now rewrite app_nil_r].
  - rewrite map_app. simpl. rewrite filter_app. simpl.
    rewrite String.eqb_refl.
    rewrite (filter_none _ roster)
      by (apply (proj1 (hasKey_false_iff Exercise.bodyPart _ _) Hseen)).
    f_equal. unfold groupSpec. apply map_ext_in. intros bp Hbp.
    rewrite filter_app. simpl.
    destruct (String.eqb (Exercise.bodyPart e) bp) eqn:E;
      [|now rewrite app_nil_r].
    apply String.eqb_eq in E. subst bp. exfalso.
    apply firstSeen_incl in Hbp.
    apply (hasKey_true_iff Exercise.bodyPart) in Hbp. congruence.
Qed.

(** On body parts that are not inherited property names the second
    [reduce] returns, and returns the specified grouping. *)
Lemma groupByBodyPart_spec roster :
  allOwn roster = true -> groupByBodyPart roster = Ok (groupSpec roster).
Proof.
  unfold groupByBodyPart, allOwn.
  induction roster as [|e roster IH] using rev_ind; intros Hown;
    [reflexivity|].
  rewrite forallb_app in Hown. apply andb_true_iff in Hown as [Hown He].
  simpl in He. rewrite andb_true_r in He. apply negb_true_iff in He.
  rewrite fold_left_app. simpl. rewrite IH by assumption.
  destruct (groupSpec_snoc roster e) as [H|H]; congruence.
Qed.

(** An inherited body part makes the second [reduce] throw. *)
Lemma groupStep_throws acc e :
  JsObject.inherited (Exercise.bodyPart e) = true ->
  (forall obj, acc = Ok obj ->
     JsObject.getOwn obj (Exercise.bodyPart e) = None) ->
  groupStep acc e = TypeError.
Proof.
  intros Hinh Hown. destruct acc as [obj|]; [|reflexivity].
  unfold groupStep, JsObject.get. now rewrite (Hown obj eq_refl), Hinh.
Qed.

End Grouping.

(* ------------------------------------------------------------------ *)
(** ** [Object.entries] on the grouping object *)

Module Entries.

Lemma isArrayIndex_false k :
  JsObject.isArrayIndex k = false -> JsObject.arrayIndex k = None.
Proof.
  unfold JsObject.isArrayIndex.
  destruct (JsObject.arrayIndex k); [discriminate|reflexivity].
Qed.

(** Without array-index keys the entries come in creation order. *)
Lemma entries_plain {V} (obj : JsObject.t V) :
  forallb (fun kv => negb (JsObject.isArrayIndex (fst kv))) obj = true ->
  JsObject.entries obj = obj.
Proof.
  intros H. unfold JsObject.entries.
  assert (Hidx : JsObject.indexed obj = []).
  { induction obj as [|kv obj IH]; [reflexivity|].
    simpl in H. apply andb_true_iff in H as [Hkv Hobj].
    apply negb_true_iff in Hkv. simpl.
    now rewrite (isArrayIndex_false _ Hkv), IH. }
  rewrite Hidx. simpl. apply filter_all.
  intros kv Hkv. rewrite forallb_forall in H. now apply H.
Qed.

Lemma insertByIndex_perm {V} n (kv : string * V) l :
  Permutation (JsObject.insertByIndex n kv l) ((n, kv) :: l).
Proof.
  induction l as [|[m kv'] l IH]; simpl; [reflexivity|].
  destruct (n <=? m)%N; [reflexivity|].
  rewrite IH. apply perm_swap.
Qed.

Lemma indexed_perm {V} (obj : JsObject.t V) :
  Permutation (map snd (JsObject.indexed obj))
    (filter (fun kv => JsObject.isArrayIndex (fst kv)) obj).
Proof.
  induction obj as [|kv obj IH]; simpl; [reflexivity|].
  unfold JsObject.isArrayIndex at 1.
  destruct (JsObject.arrayIndex (fst kv)) as [n|]; [|exact IH].
  rewrite insertByIndex_perm. simpl. now apply perm_skip.
Qed.

Lemma filter_split_perm {A} (p : A -> bool) (l : list A) :
  Permutation (filter p l ++ filter (fun x => negb (p x)) l) l.
Proof.
  induction l as [|x l IH]; simpl; [reflexivity|].
  destruct (p x); simpl.
  - now apply perm_skip.
  - rewrite <- Permutation_middle. now apply perm_skip.
Qed.

(** In every case the entries are the own properties, reordered. *)
Lemma entries_perm {V} (obj : JsObject.t V) :
  Permutation (JsObject.entries obj) obj.
Proof.
  unfold JsObject.entries. rewrite indexed_perm.
  apply (filter_split_perm (fun kv => JsObject.isArrayIndex (fst kv))).
Qed.

End Entries.

(* ------------------------------------------------------------------ *)
(** ** Properties of the specified roster and grouping *)

Module Derived.

Lemma firstSeen_strings_In (x : string) (l : list string) :
  In x (firstSeen (fun s => s) l) <-> In x l.
Proof.
  pose proof (hasKey_true_iff (fun s : string => s) x l) as H1.
  pose proof (hasKey_true_iff (fun s : string => s) x
                (firstSeen (fun s => s) l)) as H2.
  rewrite map_id in H1, H2.
  rewrite <- H1, <- H2, firstSeen_hasKey. reflexivity.
Qed.

Lemma firstSeen_strings_NoDup (l : list string) :
  NoDup (firstSeen (fun s => s) l).
Proof.
  rewrite <- (map_id (firstSeen _ l)). apply firstSeen_NoDup.
Qed.

Lemma rosterSpec_ids splitsData :
  map Exercise.id (rosterSpec splitsData)
  = map ExerciseRef.id
      (firstSeen ExerciseRef.id (flat_map Split.exercises splitsData)).
Proof. unfold rosterSpec. now rewrite map_map. Qed.

Lemma rosterSpec_NoDup splitsData :
  NoDup (map Exercise.id (rosterSpec splitsData)).
Proof. rewrite rosterSpec_ids. apply firstSeen_NoDup. Qed.

Lemma rosterSpec_covers splitsData eid :
  In eid (map Exercise.id (rosterSpec splitsData))
  <-> In eid (map ExerciseRef.id (flat_map Split.exercises splitsData)).
Proof.
  rewrite rosterSpec_ids, <- !(hasKey_true_iff ExerciseRef.id).
  now rewrite firstSeen_hasKey.
Qed.

Lemma rosterSpec_entry splitsData e :
  In e (rosterSpec splitsData) ->
  exists r, In r (flat_map Split.exercises splitsData)
    /\ Exercise.id e = ExerciseRef.id r
    /\ Exercise.name e = ExerciseRef.name r
    /\ Exercise.bodyPart e = ExerciseRef.bodyPart r
    /\ Exercise.splitIds e = owners (ExerciseRef.id r) splitsData.
Proof.
  unfold rosterSpec. intros He.
  apply in_map_iff in He as (r & <- & Hr).
  apply firstSeen_incl in Hr. exists r. simpl. auto.
Qed.

Lemma owners_NoDup eid splitsData : NoDup (owners eid splitsData).
Proof. apply firstSeen_strings_NoDup. Qed.

(** [owners] is the set of the ids of the splits listing the exercise. *)
Lemma owners_In eid splitsData sid :
  In sid (owners eid splitsData)
  <-> exists s, In s splitsData /\ Split.id s = sid
        /\ In eid (map ExerciseRef.id (Split.exercises s)).
Proof.
  unfold owners. rewrite firstSeen_strings_In, in_map_iff.
  split.
  - intros (s & Hid & Hs). apply filter_In in Hs as [Hs Hk].
    exists s. repeat split; auto. now apply hasKey_true_iff.
  - intros (s & Hs & Hid & Hk). exists s. split; [assumption|].
    apply filter_In. split; [assumption|]. now apply hasKey_true_iff.
Qed.

Lemma rosterSpec_allOwn splitsData :
  noInheritedBodyPart splitsData = true ->
  allOwn (rosterSpec splitsData) = true.
Proof.
  unfold noInheritedBodyPart, allOwn. rewrite !forallb_forall.
  intros H e He.
  destruct (rosterSpec_entry _ _ He) as (r & Hr & _ & _ & Hbp & _).
  rewrite Hbp. now apply H.
Qed.

Lemma groupSpec_In roster bp l :
  In (bp, l) (groupSpec roster) ->
  l = filter (fun e => String.eqb (Exercise.bodyPart e) bp) roster
  /\ In bp (map Exercise.bodyPart roster).
Proof.
  unfold groupSpec. intros H. apply in_map_iff in H as (bp' & Heq & Hbp).
  inversion Heq; subst. split; [reflexivity|].
  now apply firstSeen_strings_In.
Qed.

Lemma groupSpec_noIndex splitsData :
  noIndexBodyPart splitsData = true ->
  forallb (fun kv => negb (JsObject.isArrayIndex (fst kv)))
    (groupSpec (rosterSpec splitsData)) = true.
Proof.
  unfold noIndexBodyPart. rewrite !forallb_forall.
  intros H [bp l] Hkv. apply groupSpec_In in Hkv as [_ Hbp].
  apply in_map_iff in Hbp as (e & <- & He).
  destruct (rosterSpec_entry _ _ He) as (r & Hr & _ & _ & Hbp & _).
  simpl. rewrite Hbp. now apply H.
Qed.

(** Concatenating one filter per key, over distinct keys that cover the
    list, rearranges the list. *)
Lemma flat_filter_perm (keys : list string) (roster : list Exercise.t) :
  NoDup keys ->
  (forall e, In e roster -> In (Exercise.bodyPart e) keys) ->
  Permutation
    (flat_map
       (fun bp => filter (fun e => String.eqb (Exercise.bodyPart e) bp) roster)
       keys)
    roster.
Proof.
  intros Hnd. revert roster.
  induction Hnd as [|k keys Hk Hnd IH]; intros roster Hcov.
  - destruct roster as [|e roster]; [reflexivity|].
    destruct (Hcov e (or_introl eq_refl)).
  - simpl.
    etransitivity;
      [|apply (Entries.filter_split_perm
                 (fun e => String.eqb (Exercise.bodyPart e) k) roster)].
    apply Permutation_app_head.
    rewrite <- (IH (filter (fun e => negb (String.eqb (Exercise.bodyPart e) k))
                      roster)).
    + apply Permutation_refl'. apply flat_map_ext_in. intros bp Hbp.
      rewrite filter_filter. apply filter_ext. intros e.
      destruct (String.eqb (Exercise.bodyPart e) bp) eqn:E;
        [|now rewrite andb_false_r].
      apply String.eqb_eq in E. rewrite E.
      assert (bp <> k) by (intros ->; contradiction).
      apply String.eqb_neq in H. now rewrite H.
    + intros e He. apply filter_In in He as [He Hne].
      destruct (Hcov e He) as [Heq|Hin]; [|assumption].
      rewrite Heq, String.eqb_refl in Hne. discriminate.
Qed.

Lemma groupSpec_flatten roster :
  Permutation (flat_map snd (groupSpec roster)) roster.
Proof.
  unfold groupSpec. rewrite flat_map_concat_map, map_map. simpl.
  rewrite <- flat_map_concat_map.
  apply flat_filter_perm.
  - apply firstSeen_strings_NoDup.
  - intros e He. apply firstSeen_strings_In. now apply in_map.
Qed.

Lemma flattenSections_toSections obj :
  flattenSections (toSections obj) = flat_map snd (JsObject.entries obj).
Proof.
  unfold flattenSections, toSections.
  rewrite !flat_map_concat_map, map_map. reflexivity.
Qed.

End Derived.

(* ------------------------------------------------------------------ *)
(** ** The derivation *)

Module Derivation.

Lemma processSplitsData_returns splitsData :
  noInheritedBodyPart splitsData = true ->
  processSplitsData splitsData
  = Ok (mkProcessedData (rosterSpec splitsData)
          (groupSpec (rosterSpec splitsData))
          (toSections (groupSpec (rosterSpec splitsData)))).
Proof.
  intros Hinh. unfold processSplitsData.
  rewrite Roster.dedupeExercises_spec.
  now rewrite Grouping.groupByBodyPart_spec
    by (now apply Derived.rosterSpec_allOwn).
Qed.

(** The body parts of the catalog are neither inherited property names nor
    array indices. *)
Lemma catalogBodyParts_plain splitsData :
  catalogBodyParts splitsData = true ->
  noInheritedBodyPart splitsData = true /\ noIndexBodyPart splitsData = true.
Proof.
  unfold catalogBodyParts, noInheritedBodyPart, noIndexBodyPart.
  rewrite !forallb_forall. intros Hcat.
  assert (Hplain : forall bp, includes bp BODY_PARTS = true ->
            JsObject.inherited bp = false /\ JsObject.isArrayIndex bp = false).
  { intros bp Hbp. unfold includes in Hbp.
    apply existsb_exists in Hbp as (k & Hk & Heq).
    apply String.eqb_eq in Heq. subst k. unfold BODY_PARTS in Hk. simpl in Hk.
    repeat (destruct Hk as [<-|Hk]; [split; reflexivity|]). contradiction. }
  split; intros r Hr; apply negb_true_iff;
    now destruct (Hplain _ (Hcat r Hr)).
Qed.

(** C1 (as amended): when no body-part name is a property name of
    [Object.prototype] or an array index, [processSplitsData] returns
    (a) the roster with one entry per exercise id in first-seen order,
    each carrying the ids of the splits that list it, in split order and
    without repetition, and (b) the grouping of that roster by body part,
    groups in first-seen order and each group's exercises in roster order;
    the empty schedule gives an empty roster and no groups, and the
    schedule of splits A and B gives the roster and grouping of the
    specification's example. *)
Theorem processSplitsData_spec (splitsData : list Split.t) :
  noInheritedBodyPart splitsData = true ->
  noIndexBodyPart splitsData = true ->
  exists pd,
    processSplitsData splitsData = Ok pd
    /\ exercises pd = rosterSpec splitsData
    /\ exercisesByBodyPart pd = groupSpec (exercises pd)
    /\ bodyPartSections pd = map mkSection (groupSpec (exercises pd))
    /\ (splitsData = [] ->
        exercises pd = [] /\ exercisesByBodyPart pd = []
        /\ bodyPartSections pd = [])
    /\ (splitsData = [splitA; splitB] ->
        map (fun e => (Exercise.id e, Exercise.splitIds e)) (exercises pd)
        = [("chest-1", ["A"; "B"]); ("legs-1", ["B"])]
        /\ map (fun g => (fst g, map Exercise.id (snd g)))
             (exercisesByBodyPart pd)
           = [("Chest", ["chest-1"]); ("Legs", ["legs-1"])]).
Proof.
  intros Hinh Hidx. eexists. split.
  { now apply processSplitsData_returns. }
  cbn [exercises exercisesByBodyPart bodyPartSections].
  repeat split.
  - unfold toSections.
    now rewrite Entries.entries_plain by (now apply Derived.groupSpec_noIndex).
  - subst. reflexivity.
  - subst. reflexivity.
  - subst. reflexivity.
  - subst. reflexivity.
  - subst. reflexivity.
Qed.

Lemma processSplitsData_spec_witness :
  exists pd,
    processSplitsData [splitA; splitB] = Ok pd
    /\ map (fun e => (Exercise.id e, Exercise.splitIds e)) (exercises pd)
       = [("chest-1", ["A"; "B"]); ("legs-1", ["B"])].
Proof.
  destruct (processSplitsData_spec [splitA; splitB] eq_refl eq_refl)
    as (pd & Hpd & _ & _ & _ & _ & Hex).
  exists pd. split; [exact Hpd|]. exact (proj1 (Hex eq_refl)).
Defined.

(** C1 as stated fails: with the body parts "2" and "1" the groups come
    out in numeric order, not in first-seen order, and with the body part
    "constructor" the derivation throws instead of returning. *)
Lemma processSplitsData_groups_not_first_seen :
  (exists pd,
     processSplitsData numericSchedule = Ok pd
     /\ map BodyPartSectionData.bodyPart (bodyPartSections pd) = ["1"; "2"]
     /\ firstSeen (fun bp => bp) (map Exercise.bodyPart (exercises pd))
        = ["2"; "1"])
  /\ processSplitsData inheritedSchedule = TypeError.
Proof.
  split; [|reflexivity].
  eexists. split; [reflexivity|]. split; reflexivity.
Qed.

(** C3 (as amended): when no body-part name is a property name of
    [Object.prototype], the derivation returns and the flattened grouping
    is a rearrangement of the roster: it holds exactly the roster's
    entries, each group listing the roster's exercises of its body part
    in roster order. *)
Theorem flatten_grouped_permutes_roster (splitsData : list Split.t) :
  noInheritedBodyPart splitsData = true ->
  exists pd,
    processSplitsData splitsData = Ok pd
    /\ exercises pd = dedupeExercises splitsData
    /\ Permutation (flattenSections (bodyPartSections pd)) (exercises pd)
    /\ (forall sec, In sec (bodyPartSections pd) ->
          BodyPartSectionData.exercises sec
          = filter (fun e => String.eqb (Exercise.bodyPart e)
                               (BodyPartSectionData.bodyPart sec))
              (exercises pd)).
Proof.
  intros Hinh. eexists. split.
  { now apply processSplitsData_returns. }
  cbn [exercises exercisesByBodyPart bodyPartSections].
  split; [now rewrite Roster.dedupeExercises_spec|]. split.
  - rewrite Derived.flattenSections_toSections.
    rewrite (Permutation_flat_map snd (Entries.entries_perm _)).
    apply Derived.groupSpec_flatten.
  - intros sec Hsec. unfold toSections in Hsec.
    apply in_map_iff in Hsec as ([bp l] & <- & Hkv).
    apply (Permutation_in _ (Entries.entries_perm _)) in Hkv.
    apply Derived.groupSpec_In in Hkv as [-> _]. reflexivity.
Qed.

Lemma flatten_grouped_permutes_roster_witness :
  exists pd,
    processSplitsData interleavedSchedule = Ok pd
    /\ Permutation (flattenSections (bodyPartSections pd)) (exercises pd).
Proof.
  destruct (flatten_grouped_permutes_roster interleavedSchedule eq_refl)
    as (pd & Hpd & _ & Hperm & _).
  exists pd. split; assumption.
Defined.

(** C3 as stated fails: for a split listing chest, legs, chest exercises
    the flattened grouping puts both chest exercises first and so differs
    from the roster; and with the body part "constructor" there is no
    grouped output to flatten. *)
Lemma flatten_grouped_differs_from_roster :
  (exists pd,
     processSplitsData interleavedSchedule = Ok pd
     /\ map Exercise.id (exercises pd) = ["chest-1"; "legs-1"; "chest-2"]
     /\ map Exercise.id (flattenSections (bodyPartSections pd))
        = ["chest-1"; "chest-2"; "legs-1"]
     /\ flattenSections (bodyPartSections pd) <> exercises pd)
  /\ processSplitsData inheritedSchedule = TypeError.
Proof.
  split; [|reflexivity].
  eexists. split; [reflexivity|]. split; [reflexivity|].
  split; [reflexivity|]. vm_compute. discriminate.
Qed.

(** C9: whatever the splits list, also with an exercise id repeated
    inside one split, the roster has exactly one entry per distinct
    exercise id of the schedule, and the [splitIds] of every entry are
    without repetition and are exactly the ids of the splits listing the
    exercise. *)
Theorem dedupeExercises_unique (splitsData : list Split.t) :
  NoDup (map Exercise.id (dedupeExercises splitsData))
  /\ (forall eid,
        In eid (map Exercise.id (dedupeExercises splitsData))
        <-> In eid (map ExerciseRef.id
                      (flat_map Split.exercises splitsData)))
  /\ Forall (fun e => NoDup (Exercise.splitIds e))
       (dedupeExercises splitsData)
  /\ Forall (fun e => forall sid,
               In sid (Exercise.splitIds e)
               <-> exists s, In s splitsData /\ Split.id s = sid
                     /\ In (Exercise.id e)
                          (map ExerciseRef.id (Split.exercises s)))
       (dedupeExercises splitsData)
  /\ match processSplitsData splitsData with
     | Ok pd => exercises pd = dedupeExercises splitsData
     | TypeError => True
     end.
Proof.
  rewrite Roster.dedupeExercises_spec.
  split; [apply Derived.rosterSpec_NoDup|].
  split; [apply Derived.rosterSpec_covers|].
  split; [|split].
  - apply Forall_forall. intros e He.
    destruct (Derived.rosterSpec_entry _ _ He) as (r & _ & _ & _ & _ & ->).
    apply Derived.owners_NoDup.
  - apply Forall_forall. intros e He sid.
    destruct (Derived.rosterSpec_entry _ _ He) as (r & _ & -> & _ & _ & ->).
    apply Derived.owners_In.
  - unfold processSplitsData.
    destruct (groupByBodyPart _); [|exact I].
    simpl. apply Roster.dedupeExercises_spec.
Qed.

Lemma dedupeExercises_unique_witness :
  map (fun e => (Exercise.id e, Exercise.splitIds e))
    (dedupeExercises repeatedSchedule)
  = [("chest-1", ["A"; "B"]); ("legs-1", ["B"])]
  /\ NoDup (map Exercise.id (dedupeExercises repeatedSchedule)).
Proof.
  split; [reflexivity|].
  exact (proj1 (dedupeExercises_unique repeatedSchedule)).
Defined.

End Derivation.

(* ------------------------------------------------------------------ *)
(** ** Assigning a weekday *)

Lemma Forall2_map_self {A B} (R : A -> B -> Prop) (f : A -> B) (l : list A) :
  (forall x, In x l -> R x (f x)) -> Forall2 R l (map f l).
Proof.
  induction l as [|x l IH]; intros H; simpl; constructor.
  - apply H. now left.
  - apply IH. intros y Hy. apply H. now right.
Qed.

Module Assign.
Import WorkoutScreen.

Lemma filter_idem {A} (p : A -> bool) (l : list A) :
  filter p (filter p l) = filter p l.
Proof.
  rewrite filter_filter. apply filter_ext. intros x. now destruct (p x).
Qed.

Lemma removeDay_clears day s : ~ In day (Split.days (removeDay day s)).
Proof.
  simpl. intros H. apply filter_In in H as [_ H].
  now rewrite String.eqb_refl in H.
Qed.

Lemma removeDay_idem day s : removeDay day (removeDay day s) = removeDay day s.
Proof. unfold removeDay. simpl. now rewrite filter_idem. Qed.

Lemma removeDay_addDay day s :
  removeDay day (addDay day (removeDay day s)) = removeDay day s.
Proof.
  unfold removeDay, addDay. simpl. f_equal.
  rewrite filter_app, filter_idem. simpl.
  rewrite String.eqb_refl. simpl. apply app_nil_r.
Qed.

Lemma assignDay_pointwise day split prevSplits :
  assignDay day split prevSplits = map (reassigned day split) prevSplits.
Proof. unfold assignDay. rewrite map_map. reflexivity. Qed.

Lemma reassigned_id day split s :
  Split.id (reassigned day split s) = Split.id s.
Proof. unfold reassigned. now destruct (String.eqb _ _). Qed.

Lemma reassigned_idem day split s :
  reassigned day split (reassigned day split s) = reassigned day split s.
Proof.
  unfold reassigned at 1. rewrite reassigned_id. unfold reassigned.
  destruct (String.eqb (Split.id s) (Split.id split)).
  - now rewrite removeDay_addDay.
  - apply removeDay_idem.
Qed.

Lemma reassigned_days day split s :
  In day (Split.days (reassigned day split s))
  <-> Split.id (reassigned day split s) = Split.id split.
Proof.
  rewrite reassigned_id. unfold reassigned.
  destruct (String.eqb (Split.id s) (Split.id split)) eqn:E.
  - apply String.eqb_eq in E. split; [auto|]. intros _. simpl.
    apply in_or_app. right. now left.
  - apply String.eqb_neq in E. split; [|contradiction].
    intros H. now apply removeDay_clears in H.
Qed.

Lemma assignDay_idempotent day split prevSplits :
  assignDay day split (assignDay day split prevSplits)
  = assignDay day split prevSplits.
Proof.
  rewrite !assignDay_pointwise, map_map. apply map_ext.
  intros s. apply reassigned_idem.
Qed.

Lemma WEEKDAYS_nonempty day : In day WEEKDAYS -> day <> "".
Proof.
  unfold WEEKDAYS. simpl. intros H.
  repeat (destruct H as [<-|H]; [discriminate|]). contradiction.
Qed.

Lemma handleSplitSelect_assigns split st day :
  editMode st = EditMode.program ->
  selectedDay st = Some day ->
  day <> "" ->
  handleSplitSelect split st
  = mk (assignDay day split (splits st)) EditMode.program None None
       (selectedSplitDetail st).
Proof.
  intros Hmode Hday Hne. unfold handleSplitSelect.
  rewrite Hday, Hmode. simpl.
  apply String.eqb_neq in Hne. now rewrite Hne.
Qed.

Lemma count_occ_without day (l : list string) :
  count_occ string_dec (filter (fun d => negb (String.eqb d day)) l) day = 0.
Proof.
  apply count_occ_not_In. intros H. apply filter_In in H as [_ H].
  now rewrite String.eqb_refl in H.
Qed.

Lemma In_without day d (l : list string) :
  d <> day ->
  (In d (filter (fun x => negb (String.eqb x day)) l) <-> In d l).
Proof.
  intros Hd. rewrite filter_In. apply String.eqb_neq in Hd. rewrite Hd.
  simpl. tauto.
Qed.

(** C2: in program edit mode with weekday [day] selected, choosing a split
    whose id is in the schedule first removes [day] from every split's
    days, keeping every other day of every split in place, and then
    appends it to the days of the split with the chosen id.  Afterwards a
    split's days contain [day] exactly when it has the chosen id, such a
    split exists and lists [day] once; each split keeps its id, name,
    color, exercises and position, and its days are its former days other
    than [day], in their order, followed by [day] for the chosen id; the
    day and split selections are cleared. *)
Theorem handleSplitSelect_exclusive (st : t) (split : Split.t) (day : string) :
  editMode st = EditMode.program ->
  selectedDay st = Some day ->
  day <> "" ->
  In (Split.id split) (map Split.id (splits st)) ->
  let cleared := map (removeDay day) (splits st) in
  let st' := handleSplitSelect split st in
  let others (l : list string) :=
    filter (fun d => negb (String.eqb d day)) l in
  Forall (fun s => ~ In day (Split.days s)) cleared
  /\ splits st'
     = map (fun s => if String.eqb (Split.id s) (Split.id split)
                     then addDay day s else s) cleared
  /\ map Split.id (splits st') = map Split.id (splits st)
  /\ (exists s, In s (splits st') /\ Split.id s = Split.id split
                /\ In day (Split.days s))
  /\ Forall (fun s => In day (Split.days s) <-> Split.id s = Split.id split)
       (splits st')
  /\ Forall2 (fun s c =>
                Split.days c = others (Split.days s)
                /\ (forall d, d <> day ->
                      (In d (Split.days c) <-> In d (Split.days s)))
                /\ Split.id c = Split.id s /\ Split.name c = Split.name s
                /\ Split.color c = Split.color s
                /\ Split.exercises c = Split.exercises s)
       (splits st) cleared
  /\ Forall2 (fun c s' =>
                Split.days s'
                = Split.days c
                  ++ (if String.eqb (Split.id c) (Split.id split)
                      then [day] else [])
                /\ Split.id s' = Split.id c /\ Split.name s' = Split.name c
                /\ Split.color s' = Split.color c
                /\ Split.exercises s' = Split.exercises c)
       cleared (splits st')
  /\ Forall2 (fun s s' =>
                Split.days s'
                = others (Split.days s)
                  ++ (if String.eqb (Split.id s) (Split.id split)
                      then [day] else [])
                /\ (forall d, d <> day ->
                      (In d (Split.days s') <-> In d (Split.days s)))
                /\ count_occ string_dec (Split.days s') day
                   = (if String.eqb (Split.id s) (Split.id split)
                      then 1 else 0)
                /\ Split.id s' = Split.id s /\ Split.name s' = Split.name s
                /\ Split.color s' = Split.color s
                /\ Split.exercises s' = Split.exercises s)
       (splits st) (splits st')
  /\ editMode st' = EditMode.program
  /\ selectedDay st' = None
  /\ selectedSplit st' = None
  /\ selectedSplitDetail st' = selectedSplitDetail st.
Proof.
  intros Hmode Hday Hne Hin cleared st' others. subst cleared st' others.
  rewrite (handleSplitSelect_assigns split st day Hmode Hday Hne).
  cbn [splits editMode selectedDay selectedSplit selectedSplitDetail].
  split; [|split; [reflexivity|split; [|split; [|split; [|split;
    [|split; [|split; [|repeat split]]]]]]]].
  - apply Forall_forall. intros s Hs.
    apply in_map_iff in Hs as (s0 & <- & _). apply removeDay_clears.
  - rewrite assignDay_pointwise, map_map. apply map_ext.
    intros s. apply reassigned_id.
  - apply in_map_iff in Hin as (s & Hid & Hs).
    exists (reassigned day split s). rewrite assignDay_pointwise.
    split; [now apply in_map|].
    assert (Hid' : Split.id (reassigned day split s) = Split.id split)
      by now rewrite reassigned_id.
    split; [exact Hid'|]. now apply reassigned_days.
  - rewrite assignDay_pointwise. apply Forall_forall. intros s Hs.
    apply in_map_iff in Hs as (s0 & <- & _). apply reassigned_days.
  - apply Forall2_map_self. intros s _. cbn [removeDay Split.days Split.id
      Split.name Split.color Split.exercises].
    split; [reflexivity|]. split; [|repeat split].
    intros d Hd. now apply In_without.
  - unfold assignDay. apply Forall2_map_self. intros c _.
    destruct (String.eqb (Split.id c) (Split.id split));
      cbn [addDay Split.days Split.id Split.name Split.color
           Split.exercises]; [repeat split|].
    rewrite app_nil_r. repeat split.
  - rewrite assignDay_pointwise. apply Forall2_map_self. intros s _.
    unfold reassigned.
    destruct (String.eqb (Split.id s) (Split.id split));
      cbn [addDay removeDay Split.days Split.id Split.name Split.color
           Split.exercises].
    + split; [reflexivity|]. split; [|split; [|repeat split]].
      * intros d Hd. rewrite in_app_iff, (In_without day d _ Hd).
        simpl. split; [intros [H|[H|[]]]|intros H]; auto.
        now destruct Hd.
      * rewrite count_occ_app, count_occ_without. simpl.
        now destruct (string_dec day day).
    + rewrite app_nil_r. split; [reflexivity|].
      split; [|split; [|repeat split]].
      * intros d Hd. now apply In_without.
      * apply count_occ_without.
Qed.

Lemma handleSplitSelect_exclusive_witness :
  map Split.days (splits threeDayWeek) = [["Mon"; "Tue"; "Thu"]; ["Wed"]]
  /\ map Split.days (splits (handleSplitSelect splitB threeDayWeek))
     = [["Tue"; "Thu"]; ["Wed"; "Mon"]]
  /\ Forall (fun s => In "Mon" (Split.days s) <-> Split.id s = "B")
       (splits (handleSplitSelect splitB threeDayWeek)).
Proof.
  split; [reflexivity|]. split; [reflexivity|].
  refine (proj1 (proj2 (proj2 (proj2 (proj2
    (handleSplitSelect_exclusive threeDayWeek splitB "Mon"
       eq_refl eq_refl _ _)))))).
  - discriminate.
  - simpl. right. left. reflexivity.
Defined.

(** C4: assigning weekday [day] to a split twice in a row leaves the
    schedule, day lists in order included, as one assignment leaves it:
    the updater maps its own output to itself, so selecting the day again
    and choosing the split again changes nothing, and a second press
    without a selected day is ignored. *)
Theorem handleSplitSelect_idempotent (st : t) (split : Split.t) (day : string) :
  editMode st = EditMode.program ->
  selectedDay st = Some day ->
  day <> "" ->
  let once := handleSplitSelect split st in
  assignDay day split (splits once) = splits once
  /\ handleSplitSelect split (handleDaySelect day once) = once
  /\ handleSplitSelect split once = once.
Proof.
  intros Hmode Hday Hne once. subst once.
  rewrite (handleSplitSelect_assigns split st day Hmode Hday Hne).
  cbn [splits]. split; [apply assignDay_idempotent|]. split.
  - unfold handleDaySelect. cbn [editMode selectedDay isMode negb splits
                                 selectedSplit selectedSplitDetail].
    rewrite (handleSplitSelect_assigns split
               (mk (assignDay day split (splits st)) EditMode.program
                   (Some day) None (selectedSplitDetail st))
               day eq_refl eq_refl Hne).
    cbn [splits selectedSplitDetail]. now rewrite assignDay_idempotent.
  - reflexivity.
Qed.

Lemma handleSplitSelect_idempotent_witness :
  let once := handleSplitSelect splitB mondaySelected in
  map Split.days (splits once) = [[]; ["Wed"; "Mon"]]
  /\ handleSplitSelect splitB (handleDaySelect "Mon" once) = once.
Proof.
  split; [reflexivity|].
  refine (proj1 (proj2
    (handleSplitSelect_idempotent mondaySelected splitB "Mon"
       eq_refl eq_refl _))).
  discriminate.
Defined.

End Assign.

(* ------------------------------------------------------------------ *)
(** ** Creating splits *)

Module AddSplit.
Import WorkoutScreen.

(** Seven splits already: [handleAddSplit] changes nothing. *)
Lemma handleAddSplit_full now st :
  7 <= List.length (splits st) -> handleAddSplit now st = st.
Proof.
  intros Hlen. unfold handleAddSplit.
  destruct (negb (isMode (editMode st) EditMode.splits)); [reflexivity|].
  apply Nat.leb_le in Hlen. now rewrite Hlen.
Qed.

(** Below seven, in splits edit mode, exactly one split is appended: empty
    name, no days, no exercises, no color, and the clock reading as id. *)
Lemma handleAddSplit_appends now st :
  editMode st = EditMode.splits ->
  List.length (splits st) < 7 ->
  splits (handleAddSplit now st)
  = splits st ++ [Split.mk (numberToString now) "" [] None []].
Proof.
  intros Hmode Hlen. unfold handleAddSplit. rewrite Hmode.
  cbn [isMode negb]. apply Nat.leb_gt in Hlen. now rewrite Hlen.
Qed.

Lemma handle_length st ev :
  List.length (splits (handle st ev))
  <= Nat.max (List.length (splits st)) 7.
Proof.
  destruct ev; simpl.
  - unfold toggleProgramEditMode. destruct (editMode st); simpl; lia.
  - unfold toggleSplitsEditMode. destruct (editMode st); simpl; lia.
  - unfold handleDaySelect.
    destruct (negb _); [lia|].
    destruct (selectedDay st) as [d|]; [destruct (String.eqb d day)|];
      simpl; lia.
  - unfold handleSplitPress, handleSplitSelect.
    destruct (truthy (selectedDay st) && _).
    + destruct (negb (truthy _) || _); [lia|].
      destruct (selectedDay st); simpl; [|lia].
      unfold assignDay. rewrite !length_map. lia.
    + destruct (isMode _ _); simpl; lia.
  - unfold handleSplitNameEdit. destruct (negb _); simpl; [lia|].
    rewrite length_map. lia.
  - unfold handleColorSelect. destruct (negb _); simpl; [lia|].
    rewrite length_map. lia.
  - unfold handleAddSplit. destruct (negb _); [lia|].
    destruct (Nat.leb 7 (List.length (splits st))) eqn:E; [lia|].
    apply Nat.leb_gt in E. simpl. rewrite length_app. simpl. lia.
  - unfold handleDeleteSplit. destruct (negb _); simpl; [lia|].
    pose proof (filter_length_le
                  (fun split => negb (String.eqb (Split.id split) splitId))
                  (splits st)). lia.
  - unfold handleSplitDetailUpdate. simpl. rewrite length_map. lia.
  - simpl. lia.
Qed.

(** Under any sequence of editor events a schedule of at most seven splits
    keeps at most seven splits. *)
Lemma run_at_most_seven events st :
  List.length (splits st) <= 7 ->
  List.length (splits (run events st)) <= 7.
Proof.
  unfold run. revert st.
  induction events as [|ev events IH]; intros st Hlen; [exact Hlen|].
  simpl. apply IH. pose proof (handle_length st ev). lia.
Qed.

(** C5, the code at the failing input: a split added at a clock reading
    that already names a split gets that split's id, and two additions
    within one millisecond create two splits with one id. *)
Theorem handleAddSplit_id_not_fresh :
  map Split.id (splits (handleAddSplit 1700000000000 oneTimestamped))
  = ["1700000000000"; "1700000000000"]
  /\ map Split.id
       (splits (run [AddSplit 1700000000000; AddSplit 1700000000000]
                  emptyEditor))
     = ["1700000000000"; "1700000000000"].
Proof. split; reflexivity. Qed.

End AddSplit.

(* ------------------------------------------------------------------ *)
(** ** Adding exercises to a split *)

Module AddExercise.
Import SplitDetailScreen.

Section WithSets.
Context {SetT : Type}.

Lemma asRef_convert split (r : ExerciseRef.t) :
  asRef (convertToWorkoutExercise (SetT := SetT) split r) = r.
Proof. now destruct r. Qed.

Lemma ids_convert split (rs : list ExerciseRef.t) :
  map id (map (convertToWorkoutExercise (SetT := SetT) split) rs)
  = map ExerciseRef.id rs.
Proof. rewrite map_map. reflexivity. Qed.

Lemma replaceExercises_ids split (l : list (ExerciseWithDetails SetT)) ss :
  map Split.id (replaceExercises split l ss) = map Split.id ss.
Proof.
  unfold replaceExercises. rewrite map_map. apply map_ext.
  intros s. destruct (String.eqb (Split.id s) (Split.id split)) eqn:E;
    [|reflexivity].
  apply String.eqb_eq in E. now rewrite E.
Qed.

(** C6 (as amended): [handleAddExercise] appends the converted new
    exercises, all of them and in order, to the end of the exercise list
    the screen holds for its split, whatever that list already holds.
    Nothing is filtered, so each id occurs afterwards as often as before
    plus as often as it was added, at least twice when it was present and
    is added again.  Once the backend calls have resolved, the schedule
    entries with the split's id are the route's split carrying exactly the
    screen's resulting list and every other entry is untouched: an entry
    that listed what the screen listed now lists the same followed by the
    new references.  When a backend call rejects, the schedule is
    unchanged. *)
Theorem handleAddExercise_appends (resolved : bool) (st : t SetT)
  (newExercises : list ExerciseRef.t) :
  let st' := handleAddExercise resolved newExercises st in
  exercises st'
  = exercises st ++ map (convertToWorkoutExercise (split st)) newExercises
  /\ map asRef (exercises st')
     = map asRef (exercises st) ++ newExercises
  /\ (resolved = true ->
      Forall (fun s =>
                Split.id s = Split.id (split st) ->
                Split.exercises s
                = map asRef (exercises st) ++ newExercises)
        (splits st'))
  /\ (resolved = true ->
      forall s, In s (splits st) ->
        Split.id s = Split.id (split st) ->
        Split.exercises s = map asRef (exercises st) ->
        exists s', In s' (splits st') /\ Split.id s' = Split.id s
                   /\ Split.exercises s' = Split.exercises s ++ newExercises)
  /\ map Split.id (splits st') = map Split.id (splits st)
  /\ (forall eid,
        count_occ string_dec (map id (exercises st')) eid
        = count_occ string_dec (map id (exercises st)) eid
          + count_occ string_dec (map ExerciseRef.id newExercises) eid)
  /\ (forall eid,
        In eid (map id (exercises st)) ->
        In eid (map ExerciseRef.id newExercises) ->
        2 <= count_occ string_dec (map id (exercises st')) eid)
  /\ (resolved = true ->
      Forall2 (fun s s' =>
                 (Split.id s <> Split.id (split st) -> s' = s)
                 /\ (Split.id s = Split.id (split st) ->
                     Split.name s' = Split.name (split st)
                     /\ Split.days s' = Split.days (split st)
                     /\ Split.color s' = Split.color (split st)
                     /\ Split.exercises s'
                        = map asRef (exercises st) ++ newExercises))
        (splits st) (splits st'))
  /\ (resolved = false -> splits st' = splits st)
  /\ split st' = split st
  /\ isEditing st' = isEditing st.
Proof.
  intros st'. subst st'. unfold handleAddExercise.
  cbn [exercises splits split isEditing].
  assert (Hrefs :
            map asRef
              (exercises st
               ++ map (convertToWorkoutExercise (split st)) newExercises)
            = map asRef (exercises st) ++ newExercises).
  { rewrite map_app, map_map. f_equal.
    rewrite <- (map_id newExercises) at 2. apply map_ext.
    intros r. apply asRef_convert. }
  assert (Hcount : forall eid,
            count_occ string_dec
              (map id
                 (exercises st
                  ++ map (convertToWorkoutExercise (split st)) newExercises))
              eid
            = count_occ string_dec (map id (exercises st)) eid
              + count_occ string_dec (map ExerciseRef.id newExercises) eid).
  { intros eid. now rewrite map_app, count_occ_app, ids_convert. }
  split; [reflexivity|]. split; [exact Hrefs|].
  split; [|split; [|split; [|split; [|split; [|split; [|split;
    [|split; reflexivity]]]]]]].
  - intros ->. apply Forall_forall. intros s Hs Hid.
    unfold replaceExercises in Hs.
    apply in_map_iff in Hs as (s0 & <- & _). revert Hid.
    destruct (String.eqb (Split.id s0) (Split.id (split st))) eqn:E.
    + intros _. exact Hrefs.
    + intros Hid. apply String.eqb_neq in E. contradiction.
  - intros -> s Hs Hid Hmirror.
    exists (Split.mk (Split.id (split st)) (Split.name (split st))
              (Split.days (split st)) (Split.color (split st))
              (map asRef
                 (exercises st
                  ++ map (convertToWorkoutExercise (split st)) newExercises))).
    split; [|split].
    + unfold replaceExercises. apply in_map_iff. exists s.
      split; [|assumption].
      apply String.eqb_eq in Hid. now rewrite Hid.
    + simpl. now rewrite Hid.
    + simpl. now rewrite Hrefs, Hmirror.
  - destruct resolved; [apply replaceExercises_ids|reflexivity].
  - exact Hcount.
  - intros eid Hold Hnew. rewrite Hcount.
    apply (count_occ_In string_dec) in Hold, Hnew. lia.
  - intros ->. unfold replaceExercises.
    apply Forall2_map_self. intros s _.
    destruct (String.eqb (Split.id s) (Split.id (split st))) eqn:E.
    + split; [apply String.eqb_eq in E; intros Hid; now destruct Hid|].
      intros _. cbn [Split.name Split.days Split.color Split.exercises].
      repeat split. exact Hrefs.
    + split; [reflexivity|].
      apply String.eqb_neq in E. intros Hid. now destruct E.
  - now intros ->.
Qed.
End WithSets.

Lemma handleAddExercise_appends_witness :
  map id (exercises (handleAddExercise true [chest1; legs1] splitADetail))
  = ["chest-1"; "chest-1"; "legs-1"]
  /\ map (fun s => map ExerciseRef.id (Split.exercises s))
       (splits (handleAddExercise true [chest1; legs1] splitADetail))
     = [["chest-1"; "chest-1"; "legs-1"]; ["chest-1"; "legs-1"]]
  /\ 2 <= count_occ string_dec
            (map id (exercises
                       (handleAddExercise true [chest1; legs1] splitADetail)))
            "chest-1".
Proof.
  split; [reflexivity|]. split; [reflexivity|].
  refine (proj1 (proj2 (proj2 (proj2 (proj2 (proj2 (proj2
    (handleAddExercise_appends true splitADetail [chest1; legs1])))))))
    "chest-1" _ _).
  - simpl. left. reflexivity.
  - simpl. left. reflexivity.
Defined.

(** C6 as stated fails for the list the schedule holds.  On the screen of
    split A as it mounts, its own list still empty while the schedule
    entry of A lists chest-1, adding chest-1 leaves the entry listing
    chest-1 once, and adding legs-1 leaves it listing legs-1 alone: the
    entry is overwritten with the screen's list, not appended to. *)
Lemma handleAddExercise_overwrites_entry :
  map Split.exercises (splits splitAOpened) = [[chest1]; [chest1; legs1]]
  /\ map Split.exercises
       (splits (handleAddExercise true [chest1] splitAOpened))
     = [[chest1]; [chest1; legs1]]
  /\ map Split.exercises
       (splits (handleAddExercise true [legs1] splitAOpened))
     = [[legs1]; [chest1; legs1]]
  /\ (forall s s',
        nth_error (splits splitAOpened) 0 = Some s ->
        nth_error (splits (handleAddExercise true [chest1] splitAOpened)) 0
        = Some s' ->
        Split.id s = Split.id (split splitAOpened)
        /\ Split.id s' = Split.id s
        /\ Split.exercises s' <> Split.exercises s ++ [chest1]
        /\ count_occ string_dec
             (map ExerciseRef.id (Split.exercises s')) "chest-1" = 1)
  /\ ~ (forall (st : t unit) (newExercises : list ExerciseRef.t) s s',
          newExercises <> [] ->
          In s (splits st) -> Split.id s = Split.id (split st) ->
          In s' (splits (handleAddExercise true newExercises st)) ->
          Split.id s' = Split.id s ->
          Split.exercises s' = Split.exercises s ++ newExercises).
Proof.
  split; [reflexivity|]. split; [reflexivity|]. split; [reflexivity|].
  split.
  - intros s s' [= <-] [= <-]. split; [reflexivity|].
    split; [reflexivity|]. split; [discriminate|reflexivity].
  - intros H.
    specialize (H splitAOpened [chest1] splitA
                  (Split.mk "A" "Push" ["Mon"] None [chest1])).
    discriminate H.
    + discriminate.
    + now left.
    + reflexivity.
    + now left.
    + reflexivity.
Qed.

End AddExercise.

(* ------------------------------------------------------------------ *)
(** ** Debounced saving *)

Module Debounce.
Import Persistence.
Open Scope Z_scope.

Lemma mutation_loaded time d :
  let st := mutation loaded (time, d) in
  armed st time d /\ saved st = [].
Proof.
  split; [|reflexivity].
  split; [reflexivity|]. exists 1%positive. split; reflexivity.
Qed.

(** A mutation replaces the pending timer; the replaced timer has fired
    first only if its window had ended. *)
Lemma mutation_armed st time0 d0 time d :
  armed st time0 d0 ->
  let st' := mutation st (time, d) in
  armed st' time d
  /\ saved st'
     = saved st
       ++ (if time0 + window <=? time then [(time0 + window, d0)] else []).
Proof.
  intros (Hload & h & Href & Hpending).
  unfold mutation, saveEffect, advance, debouncedSave.
  cbn [fst snd isInitialLoadRef saveTimeoutRef pending nextHandle now saved].
  rewrite Hload, Href, Hpending.
  cbn [filter due data handle map].
  destruct (time0 + window <=? time); cbn [negb filter clearTimeout handle].
  - split; [|reflexivity].
    split; [reflexivity|]. exists (nextHandle st). split; reflexivity.
  - rewrite Pos.eqb_refl. cbn [negb enqueue].
    split; [|reflexivity].
    split; [reflexivity|]. exists (nextHandle st). split; reflexivity.
Qed.

Lemma advance_armed st time0 d0 until :
  armed st time0 d0 ->
  saved (advance until st)
  = saved st
    ++ (if time0 + window <=? until then [(time0 + window, d0)] else []).
Proof.
  intros (_ & h & _ & Hpending). unfold advance. cbn [saved].
  rewrite Hpending. cbn [filter due].
  now destruct (time0 + window <=? until).
Qed.

Lemma run_armed mutations st time0 d0 until :
  armed st time0 d0 ->
  saved (advance until (fold_left mutation mutations st))
  = saved st ++ coalesced ((time0, d0) :: mutations) until.
Proof.
  revert st time0 d0.
  induction mutations as [|[time d] mutations IH]; intros st time0 d0 Harmed.
  - simpl fold_left. rewrite (advance_armed st time0 d0 until Harmed).
    simpl. now rewrite app_nil_r.
  - simpl fold_left.
    destruct (mutation_armed st time0 d0 time d Harmed) as [Harmed' Hsaved].
    rewrite (IH _ time d Harmed'), Hsaved, <- app_assoc. reflexivity.
Qed.

(** The saves of a run are exactly the coalesced mutations. *)
Lemma run_coalesced mutations until :
  saved (run mutations until) = coalesced mutations until.
Proof.
  unfold run. destruct mutations as [|[time d] mutations]; [reflexivity|].
  simpl fold_left.
  destruct (mutation_loaded time d) as [Harmed Hsaved].
  now rewrite (run_armed mutations _ time d until Harmed), Hsaved.
Qed.

Lemma fold_mutation_armed mutations time d :
  armed (fold_left mutation (mutations ++ [(time, d)]) loaded) time d.
Proof.
  revert time d.
  induction mutations as [|[time0 d0] mutations IH] using rev_ind;
    intros time d.
  - apply mutation_loaded.
  - rewrite fold_left_app. simpl.
    apply (mutation_armed _ time0 d0). apply IH.
Qed.

Lemma coalesced_snoc mutations time d until :
  coalesced (mutations ++ [(time, d)]) until
  = coalesced mutations time
    ++ (if time + window <=? until then [(time + window, d)] else []).
Proof.
  induction mutations as [|[time0 d0] mutations IH]; simpl.
  - now rewrite app_nil_r.
  - rewrite IH, app_assoc. f_equal. f_equal.
    destruct mutations as [|[time1 d1] mutations]; reflexivity.
Qed.

(** C7: with mutations at 0, 100 and 200 ms and a 500 ms window, nothing
    is saved before 700 ms and exactly one save, of the schedule as of
    200 ms, has happened from 700 ms on.  In general every mutation leaves
    exactly one pending timer, the one for its own data, so a run saves
    exactly the mutations that were followed by a full quiet window, each
    one window after it happened, and the last save is that of the last
    mutation once its window has ended. *)
Theorem debouncedSave_coalesces :
  (forall d0 d1 d2 until,
     saved (run [(0, d0); (100, d1); (200, d2)] until)
     = if 700 <=? until then [(700, d2)] else [])
  /\ (forall mutations time d,
        armed (fold_left mutation (mutations ++ [(time, d)]) loaded) time d)
  /\ (forall mutations until,
        saved (run mutations until) = coalesced mutations until)
  /\ (forall mutations time d until,
        time + window <= until ->
        exists earlier,
          saved (run (mutations ++ [(time, d)]) until)
          = earlier ++ [(time + window, d)]).
Proof.
  split; [|split; [|split]].
  - intros d0 d1 d2 until. rewrite run_coalesced.
    unfold coalesced, window.
    change (0 + 500 <=? 100) with false.
    change (100 + 500 <=? 200) with false.
    change (200 + 500) with 700.
    now destruct (700 <=? until).
  - apply fold_mutation_armed.
  - apply run_coalesced.
  - intros mutations time d until Hquiet.
    rewrite run_coalesced, coalesced_snoc.
    apply Z.leb_le in Hquiet. rewrite Hquiet. eauto.
Qed.

Lemma debouncedSave_coalesces_witness :
  saved (run [(0, [splitA]); (100, [splitA; splitB]); (200, [splitB])] 1000)
  = [(700, [splitB])]
  /\ exists earlier,
       saved (run ([(0, [splitA]); (100, [splitA; splitB])]
                   ++ [(200, [splitB])]) 700)
       = earlier ++ [(200 + window, [splitB])].
Proof.
  split.
  - exact (proj1 debouncedSave_coalesces [splitA] [splitA; splitB]
             [splitB] 1000).
  - refine (proj2 (proj2 (proj2 debouncedSave_coalesces))
              [(0, [splitA]); (100, [splitA; splitB])] 200 [splitB] 700 _).
    unfold window. lia.
Defined.

End Debounce.

(* ------------------------------------------------------------------ *)
(** ** Date strings *)

Module DateStrings.
Import ProgressScreen.
Open Scope Z_scope.

Lemma upTo_In lo count z :
  lo <= z < lo + count -> In z (upTo lo count).
Proof.
  intros H. unfold upTo. apply in_map_iff.
  exists (Z.to_nat (z - lo)). split; [lia|]. apply in_seq. lia.
Qed.

Lemma numberToString_year y :
  1000 <= y <= 9999 -> numberToString y = fourDigits y.
Proof.
  intros H.
  assert (Hall : forallb (fun z => String.eqb (numberToString z) (fourDigits z))
                   (upTo 1000 9000) = true) by (vm_compute; reflexivity).
  rewrite forallb_forall in Hall. apply String.eqb_eq, Hall, upTo_In. lia.
Qed.

Lemma padStart2_small n :
  1 <= n <= 31 -> padStart2 (numberToString n) = twoDigits n.
Proof.
  intros H.
  assert (Hall : forallb (fun z => String.eqb (padStart2 (numberToString z))
                                     (twoDigits z))
                   (upTo 1 31) = true) by (vm_compute; reflexivity).
  rewrite forallb_forall in Hall. apply String.eqb_eq, Hall, upTo_In. lia.
Qed.

Lemma digitChar_compare a b :
  0 <= a <= 9 -> 0 <= b <= 9 ->
  Ascii.compare (digitChar a) (digitChar b) = (a ?= b).
Proof.
  intros Ha Hb.
  assert (Hall : forallb (fun x =>
                    forallb (fun y =>
                       match Ascii.compare (digitChar x) (digitChar y), x ?= y with
                       | Eq, Eq | Lt, Lt | Gt, Gt => true
                       | _, _ => false
                       end) (upTo 0 10)) (upTo 0 10) = true)
    by (vm_compute; reflexivity).
  rewrite forallb_forall in Hall.
  specialize (Hall a (upTo_In 0 10 a ltac:(lia))).
  rewrite forallb_forall in Hall.
  specialize (Hall b (upTo_In 0 10 b ltac:(lia))).
  destruct (Ascii.compare _ _), (a ?= b); try discriminate; reflexivity.
Qed.

Ltac decide_compare :=
  repeat match goal with
    | |- context [?x ?= ?y] =>
        first
          [ replace (x ?= y) with Eq
              by (symmetry; apply Z.compare_eq_iff;
                  Z.to_euclidean_division_equations; lia)
          | replace (x ?= y) with Lt
              by (symmetry; apply Z.compare_lt_iff;
                  Z.to_euclidean_division_equations; lia)
          | replace (x ?= y) with Gt
              by (symmetry; apply Z.compare_gt_iff;
                  Z.to_euclidean_division_equations; lia) ]
    end.

(** On [YYYY-MM-DD] strings the code-unit order is the calendar order. *)
Lemma isoDate_compare y m d y' m' d' :
  1000 <= y <= 9999 -> 1 <= m <= 12 -> 1 <= d <= 31 ->
  1000 <= y' <= 9999 -> 1 <= m' <= 12 -> 1 <= d' <= 31 ->
  String.compare (isoDate y m d) (isoDate y' m' d')
  = compareDays y m d y' m' d'.
Proof.
  intros Hy Hm Hd Hy' Hm' Hd'. unfold isoDate, compareDays.
  rewrite (numberToString_year y), (numberToString_year y') by lia.
  rewrite (padStart2_small m), (padStart2_small m') by lia.
  rewrite (padStart2_small d), (padStart2_small d') by lia.
  unfold fourDigits, twoDigits.
  assert (Hdig : forall z, 0 <= z mod 10 <= 9)
    by (intros; Z.to_euclidean_division_equations; lia).
  assert (Hy1 : 0 <= y / 1000 <= 9)
    by (Z.to_euclidean_division_equations; lia).
  assert (Hy1' : 0 <= y' / 1000 <= 9)
    by (Z.to_euclidean_division_equations; lia).
  assert (Hm1 : 0 <= m / 10 <= 9)
    by (Z.to_euclidean_division_equations; lia).
  assert (Hm1' : 0 <= m' / 10 <= 9)
    by (Z.to_euclidean_division_equations; lia).
  assert (Hd1 : 0 <= d / 10 <= 9)
    by (Z.to_euclidean_division_equations; lia).
  assert (Hd1' : 0 <= d' / 10 <= 9)
    by (Z.to_euclidean_division_equations; lia).
  cbn [append String.compare].
  change (Ascii.compare "-" "-") with Eq.
  rewrite !digitChar_compare by (first [assumption | apply Hdig]).
  destruct (Z.compare_spec (y / 1000) (y' / 1000));
    [|decide_compare; reflexivity ..].
  destruct (Z.compare_spec (y / 100 mod 10) (y' / 100 mod 10));
    [|decide_compare; reflexivity ..].
  destruct (Z.compare_spec (y / 10 mod 10) (y' / 10 mod 10));
    [|decide_compare; reflexivity ..].
  destruct (Z.compare_spec (y mod 10) (y' mod 10));
    [|decide_compare; reflexivity ..].
  assert (y = y') by (Z.to_euclidean_division_equations; lia). subst y'.
  rewrite (Z.compare_refl y).
  destruct (Z.compare_spec (m / 10) (m' / 10));
    [|decide_compare; reflexivity ..].
  destruct (Z.compare_spec (m mod 10) (m' mod 10));
    [|decide_compare; reflexivity ..].
  assert (m = m') by (Z.to_euclidean_division_equations; lia). subst m'.
  rewrite (Z.compare_refl m).
  destruct (Z.compare_spec (d / 10) (d' / 10));
    [|decide_compare; reflexivity ..].
  destruct (Z.compare_spec (d mod 10) (d' mod 10));
    [|decide_compare; reflexivity ..].
  assert (d = d') by (Z.to_euclidean_division_equations; lia). subst d'.
  now rewrite (Z.compare_refl d).
Qed.

End DateStrings.

(* ------------------------------------------------------------------ *)
(** ** Session-log lookup *)

Module SessionLog.
Import ProgressScreen.

Lemma includes_In x l : includes x l = true <-> In x l.
Proof.
  unfold includes. rewrite existsb_exists. split.
  - intros (y & Hy & Heq). apply String.eqb_eq in Heq. now subst.
  - intros H. exists x. split; [assumption|apply String.eqb_refl].
Qed.

(** [find] returns the first element that satisfies the predicate. *)
Lemma find_first {A} (p : A -> bool) (l : list A) (x : A) :
  find p l = Some x ->
  exists before after,
    l = before ++ x :: after /\ p x = true
    /\ Forall (fun y => p y = false) before.
Proof.
  induction l as [|a l IH]; simpl; [discriminate|].
  destruct (p a) eqn:Ha.
  - intros [= <-]. exists [], l. auto.
  - intros Hfind. destruct (IH Hfind) as (before & after & -> & Hx & Hb).
    exists (a :: before), after. auto.
Qed.

Lemma find_exists {A} (p : A -> bool) (l : list A) :
  (exists x, In x l /\ p x = true) -> exists x, find p l = Some x.
Proof.
  intros (x & Hx & Hp). destruct (find p l) as [y|] eqn:E; [eauto|].
  now rewrite (find_none _ _ E x Hx) in Hp.
Qed.

Lemma days_nonempty d : In d days -> d <> "".
Proof.
  unfold days. simpl. intros H.
  repeat (destruct H as [<-|H]; [discriminate|]). contradiction.
Qed.

Lemma getDayOfWeek_value getDay date d :
  getDayOfWeek getDay date = JsValue d -> In d days.
Proof.
  unfold getDayOfWeek. destruct date as [s|]; [|discriminate].
  destruct (String.eqb s ""); [discriminate|].
  destruct (getDay s) as [n|]; [|discriminate].
  destruct (nth_error days n) as [d'|] eqn:E; [|discriminate].
  intros [= <-]. now apply nth_error_In in E.
Qed.

Lemma getScheduledSplit_weekday splits d :
  d <> "" ->
  getScheduledSplit splits (JsValue d)
  = match find (fun split => includes d (Split.days split)) splits with
    | Some split => JsValue split
    | None => JsUndefined
    end.
Proof.
  intros Hd. unfold getScheduledSplit.
  apply String.eqb_neq in Hd. now rewrite Hd.
Qed.

(** C10: when the day sets of one or more splits contain the weekday, also
    of several of them, the lookup returns the first of these splits in
    the stored order of the schedule. *)
Theorem getScheduledSplit_first (splits : list Split.t) (d : string) :
  d <> "" ->
  (exists s, In s splits /\ In d (Split.days s)) ->
  exists before s after,
    splits = before ++ s :: after
    /\ getScheduledSplit splits (JsValue d) = JsValue s
    /\ In d (Split.days s)
    /\ Forall (fun s' => ~ In d (Split.days s')) before.
Proof.
  intros Hd (s0 & Hs0 & Hd0).
  rewrite (getScheduledSplit_weekday splits d Hd).
  destruct (find_exists (fun split => includes d (Split.days split)) splits)
    as [s Hfind].
  { exists s0. split; [assumption|]. now apply includes_In. }
  rewrite Hfind.
  destruct (find_first _ _ _ Hfind) as (before & after & Heq & Hs & Hbefore).
  exists before, s, after. repeat split; auto.
  - now apply includes_In.
  - eapply Forall_impl; [|exact Hbefore]. intros s' Hs' Hin.
    apply includes_In in Hin. simpl in Hs'. congruence.
Qed.

Lemma getScheduledSplit_first_witness :
  getScheduledSplit mondayTwice (JsValue "Mon") = JsValue splitA
  /\ exists before s after,
       mondayTwice = before ++ s :: after
       /\ getScheduledSplit mondayTwice (JsValue "Mon") = JsValue s
       /\ In "Mon" (Split.days s)
       /\ Forall (fun s' => ~ In "Mon" (Split.days s')) before.
Proof.
  split; [reflexivity|].
  apply (getScheduledSplit_first mondayTwice "Mon").
  - discriminate.
  - exists splitA. split; [right; left; reflexivity|left; reflexivity].
Defined.

Lemma todayString_isoDate st :
  todayString st
  = isoDate (fullYear (today st)) (month (today st) + 1)
      (dayOfMonth (today st)).
Proof. reflexivity. Qed.

Lemma stringGt_days y m d y' m' d' :
  compareDays y m d y' m' d' = Gt <-> later y m d y' m' d'.
Proof.
  unfold compareDays, later.
  destruct (Z.compare_spec y y'); [destruct (Z.compare_spec m m');
    [destruct (Z.compare_spec d d')|..]|..];
    split; intros Hc; try discriminate; try reflexivity; try lia.
Qed.

Lemma isoDate_nonempty y m d :
  (1000 <= y <= 9999)%Z -> String.eqb (isoDate y m d) "" = false.
Proof.
  intros Hy. unfold isoDate.
  rewrite (DateStrings.numberToString_year y Hy). reflexivity.
Qed.

(** Whatever [Date] reports: the lookup names the reported weekday and
    returns a split of the schedule whose days contain it, whenever there
    is one; when no split's days contain it, or no weekday or date is
    there, the result is empty ([undefined] or [null]) and nothing is
    thrown.  The result depends on the schedule and the date only, and both
    lookups return a value without touching the state.  [isFutureDate] is
    false without a selected date, and for a selected [YYYY-MM-DD] date it
    tells whether that day is later than today. *)
Lemma scheduledSplit_lookup (getDay : string -> option nat) (st : t) :
  (forall n d, getDay (shownDate st) = Some n -> nth_error days n = Some d ->
     shownDate st <> "" ->
     getDayOfWeek getDay (Some (shownDate st)) = JsValue d)
  /\ (forall s, scheduledSplit getDay st = JsValue s ->
        exists d, getDayOfWeek getDay (Some (shownDate st)) = JsValue d
                  /\ In s (splits st) /\ In d (Split.days s))
  /\ (forall d, getDayOfWeek getDay (Some (shownDate st)) = JsValue d ->
        (exists s, In s (splits st) /\ In d (Split.days s)) ->
        exists s, scheduledSplit getDay st = JsValue s)
  /\ (forall d, getDayOfWeek getDay (Some (shownDate st)) = JsValue d ->
        (forall s, In s (splits st) -> ~ In d (Split.days s)) ->
        scheduledSplit getDay st = JsUndefined)
  /\ (isEmpty (getDayOfWeek getDay (Some (shownDate st))) = true ->
        scheduledSplit getDay st = JsNull)
  /\ getScheduledSplit (splits st) (getDayOfWeek getDay None) = JsNull
  /\ (forall st', splits st' = splits st -> shownDate st' = shownDate st ->
        scheduledSplit getDay st' = scheduledSplit getDay st)
  /\ (selectedDate st = None -> isFutureDate st = false)
  /\ (forall y m d,
        selectedDate st = Some (isoDate y m d) ->
        (1000 <= y <= 9999 /\ 1 <= m <= 12 /\ 1 <= d <= 31)%Z ->
        (1000 <= fullYear (today st) <= 9999
         /\ 0 <= month (today st) <= 11
         /\ 1 <= dayOfMonth (today st) <= 31)%Z ->
        (isFutureDate st = true
         <-> later y m d (fullYear (today st)) (month (today st) + 1)
               (dayOfMonth (today st)))).
Proof.
  unfold scheduledSplit.
  split; [|split; [|split; [|split; [|split; [|split; [|split; [|split]]]]]]].
  - intros n d Hn Hd Hne. unfold getDayOfWeek.
    apply String.eqb_neq in Hne. now rewrite Hne, Hn, Hd.
  - intros s Hs.
    destruct (getDayOfWeek getDay (Some (shownDate st))) as [| |d] eqn:Hday;
      try discriminate.
    exists d. split; [reflexivity|].
    pose proof (days_nonempty d (getDayOfWeek_value _ _ _ Hday)) as Hne.
    rewrite (getScheduledSplit_weekday _ d Hne) in Hs.
    destruct (find _ (splits st)) as [s'|] eqn:Hfind; [|discriminate].
    injection Hs as ->. apply find_some in Hfind as [Hin Hinc].
    split; [assumption|]. now apply includes_In.
  - intros d Hday Hex. rewrite Hday.
    pose proof (days_nonempty d (getDayOfWeek_value _ _ _ Hday)) as Hne.
    destruct (getScheduledSplit_first (splits st) d Hne Hex)
      as (_ & s & _ & _ & Hs & _).
    eauto.
  - intros d Hday Hnone. rewrite Hday.
    pose proof (days_nonempty d (getDayOfWeek_value _ _ _ Hday)) as Hne.
    rewrite (getScheduledSplit_weekday _ d Hne).
    destruct (find _ (splits st)) as [s|] eqn:Hfind; [|reflexivity].
    apply find_some in Hfind as [Hin Hinc]. apply includes_In in Hinc.
    destruct (Hnone s Hin Hinc).
  - destruct (getDayOfWeek getDay (Some (shownDate st)));
      [reflexivity|reflexivity|discriminate].
  - reflexivity.
  - intros st' Hsplits Hdate. now rewrite Hsplits, Hdate.
  - intros Hsel. unfold isFutureDate. now rewrite Hsel.
  - intros y m d Hsel (Hy & Hm & Hd) (Hy' & Hm' & Hd').
    unfold isFutureDate. rewrite Hsel, (isoDate_nonempty y m d Hy).
    rewrite todayString_isoDate. unfold stringGt.
    rewrite DateStrings.isoDate_compare by lia.
    rewrite <- stringGt_days.
    destruct (compareDays _ _ _ _ _ _);
      split; intros H; try discriminate; reflexivity.
Qed.

Lemma scheduledSplit_lookup_utc :
  scheduledSplit (JsDate.getDay JsDate.utc JsDate.unparsed) nextMonday
  = JsValue splitA
  /\ isFutureDate nextMonday = true.
Proof.
  split; [reflexivity|].
  refine (proj2 (proj2 (proj2 (proj2 (proj2 (proj2 (proj2 (proj2 (proj2
    (scheduledSplit_lookup (JsDate.getDay JsDate.utc JsDate.unparsed)
       nextMonday)))))))) 2026%Z 11%Z 9%Z eq_refl _ _) _).
  - simpl. lia.
  - simpl. lia.
  - unfold later. simpl. lia.
Qed.

Lemma digitValue_digitChar k :
  (0 <= k <= 9)%Z -> JsDate.digitValue (digitChar k) = Some k.
Proof.
  intros Hk.
  assert (Hall : forallb (fun z =>
                    match JsDate.digitValue (digitChar z) with
                    | Some v => Z.eqb v z
                    | None => false
                    end) (upTo 0 10) = true) by (vm_compute; reflexivity).
  rewrite forallb_forall in Hall.
  specialize (Hall k (DateStrings.upTo_In 0 10 k ltac:(lia))).
  destruct (JsDate.digitValue (digitChar k)); [|discriminate].
  apply Z.eqb_eq in Hall. now subst.
Qed.

(** A [YYYY-MM-DD] string of a calendar day is read back as that day. *)
Lemma parseDateOnly_isoDate y m d :
  (1000 <= y <= 9999)%Z -> (1 <= m <= 12)%Z ->
  (1 <= d <= JsDate.daysInMonth (JsDate.InLeapYear y) (m - 1))%Z ->
  JsDate.parseDateOnly (isoDate y m d) = Some (y, m, d).
Proof.
  intros Hy Hm Hd.
  assert (Hd31 : (d <= 31)%Z).
  { assert (Hall : forallb (fun leap => forallb (fun k =>
                       (JsDate.daysInMonth leap (k - 1) <=? 31)%Z)
                     (upTo 1 12)) [true; false] = true) by reflexivity.
    rewrite forallb_forall in Hall.
    specialize (Hall (JsDate.InLeapYear y)
                  ltac:(destruct (JsDate.InLeapYear y); simpl; auto)).
    rewrite forallb_forall in Hall.
    specialize (Hall m (DateStrings.upTo_In 1 12 m ltac:(lia))).
    apply Z.leb_le in Hall. lia. }
  unfold isoDate.
  rewrite (DateStrings.numberToString_year y) by lia.
  rewrite (DateStrings.padStart2_small m), (DateStrings.padStart2_small d)
    by lia.
  unfold fourDigits, twoDigits, JsDate.parseDateOnly.
  cbn [append list_ascii_of_string].
  unfold JsDate.twoDigitValue.
  rewrite !digitValue_digitChar
    by (Z.to_euclidean_division_equations; lia).
  replace (100 * (10 * (y / 1000) + (y / 100) mod 10)
           + (10 * ((y / 10) mod 10) + y mod 10))%Z with y
    by (Z.to_euclidean_division_equations; lia).
  replace (10 * (m / 10) + m mod 10)%Z with m
    by (Z.to_euclidean_division_equations; lia).
  replace (10 * (d / 10) + d mod 10)%Z with d
    by (Z.to_euclidean_division_equations; lia).
  change (Ascii.eqb "-" "-") with true. cbn [andb].
  replace (1 <=? m)%Z with true by (symmetry; apply Z.leb_le; lia).
  replace (m <=? 12)%Z with true by (symmetry; apply Z.leb_le; lia).
  replace (1 <=? d)%Z with true by (symmetry; apply Z.leb_le; lia).
  replace (d <=? JsDate.daysInMonth (JsDate.InLeapYear y) (m - 1))%Z
    with true by (symmetry; apply Z.leb_le; lia).
  reflexivity.
Qed.

(** The weekday of an instant within the day after midnight UTC of day
    number [D] is that of [D]; within the day before, that of [D - 1]. *)
Lemma WeekDay_shifted D offset :
  (- JsDate.msPerDay <= offset < JsDate.msPerDay)%Z ->
  JsDate.WeekDay (D * JsDate.msPerDay + offset)
  = (if (offset <? 0)%Z then (D - 1 + 4) mod 7 else (D + 4) mod 7)%Z.
Proof.
  unfold JsDate.WeekDay, JsDate.Day, JsDate.msPerDay. intros Hoff.
  destruct (Z.ltb_spec offset 0); f_equal; f_equal;
    Z.to_euclidean_division_equations; lia.
Qed.

(** On the date string of a calendar day, [getDay] in a zone west of UTC
    reports the weekday of the day before. *)
Lemma getDay_isoDate localTZA parseOther y m d :
  (1000 <= y <= 9999)%Z -> (1 <= m <= 12)%Z ->
  (1 <= d <= JsDate.daysInMonth (JsDate.InLeapYear y) (m - 1))%Z ->
  let D := JsDate.MakeDay y (m - 1) d in
  let offset := localTZA (D * JsDate.msPerDay)%Z in
  (- JsDate.msPerDay <= offset < JsDate.msPerDay)%Z ->
  JsDate.getDay localTZA parseOther (isoDate y m d)
  = Some (Z.to_nat (if (offset <? 0)%Z then (D - 1 + 4) mod 7
                    else (D + 4) mod 7)%Z).
Proof.
  intros Hy Hm Hd D offset Hoff. unfold JsDate.getDay, JsDate.parse.
  rewrite (parseDateOnly_isoDate y m d Hy Hm Hd).
  unfold JsDate.LocalTime. fold D. fold offset.
  now rewrite (WeekDay_shifted D offset Hoff).
Qed.

(** C8, the code at the failing input: 9 November 2026 is a Monday, and on
    a device on UTC the lookup finds the Monday split; on a device five
    hours west of UTC the same date string is given the weekday "Sun" and
    the lookup returns the Sunday split. *)
Theorem scheduledSplit_west_of_utc :
  JsDate.WeekDay (JsDate.MakeDay 2026 10 9 * JsDate.msPerDay) = 1%Z
  /\ scheduledSplit (JsDate.getDay JsDate.utc JsDate.unparsed) sundayMonday
     = JsValue splitA
  /\ getDayOfWeek (JsDate.getDay JsDate.fiveHoursWest JsDate.unparsed)
       (Some (shownDate sundayMonday))
     = JsValue "Sun"
  /\ scheduledSplit (JsDate.getDay JsDate.fiveHoursWest JsDate.unparsed)
       sundayMonday
     = JsValue sundaySplit.
Proof. repeat split; reflexivity. Qed.

End SessionLog.

(* ------------------------------------------------------------------ *)
(** ** Edit modes and what they let through *)

Module Modes.
Import WorkoutScreen.

(** X1: one event never takes the editor from program edit mode to splits
    edit mode or back: the mode changes only on a toggle, and then between
    no edit mode and the mode of that toggle. *)
Theorem handle_mode_steps (st : t) (ev : event) :
  editMode (handle st ev) = editMode st
  \/ (ev = ToggleProgramEditMode
      /\ ((editMode st = EditMode.none
           /\ editMode (handle st ev) = EditMode.program)
          \/ (editMode st = EditMode.program
              /\ editMode (handle st ev) = EditMode.none)))
  \/ (ev = ToggleSplitsEditMode
      /\ ((editMode st = EditMode.none
           /\ editMode (handle st ev) = EditMode.splits)
          \/ (editMode st = EditMode.splits
              /\ editMode (handle st ev) = EditMode.none))).
Proof.
  destruct ev; simpl.
  - unfold toggleProgramEditMode. destruct (editMode st) eqn:E; simpl; auto 10.
  - unfold toggleSplitsEditMode. destruct (editMode st) eqn:E; simpl; auto 10.
  - left. unfold handleDaySelect. destruct (negb _); [reflexivity|].
    destruct (selectedDay st) as [d|]; [destruct (String.eqb d day)|];
      reflexivity.
  - left. unfold handleSplitPress, handleSplitSelect.
    destruct (truthy (selectedDay st) && _).
    + destruct (negb (truthy _) || _); [reflexivity|].
      destruct (selectedDay st); reflexivity.
    + destruct (isMode _ _); reflexivity.
  - left. unfold handleSplitNameEdit. destruct (negb _); reflexivity.
  - left. unfold handleColorSelect. destruct (negb _); reflexivity.
  - left. unfold handleAddSplit. destruct (negb _); [reflexivity|].
    destruct (Nat.leb _ _); reflexivity.
  - left. unfold handleDeleteSplit. destruct (negb _); reflexivity.
  - left. reflexivity.
  - left. reflexivity.
Qed.

Lemma handle_selection st ev :
  (editMode st = EditMode.program \/ selectedDay st = None) ->
  editMode (handle st ev) = EditMode.program
  \/ selectedDay (handle st ev) = None.
Proof.
  intros Hinv. destruct ev; simpl.
  - unfold toggleProgramEditMode.
    destruct (editMode st) eqn:E; simpl; auto.
    destruct Hinv as [Hm|Hs]; [discriminate|auto].
  - unfold toggleSplitsEditMode.
    destruct (editMode st) eqn:E; simpl; auto;
      destruct Hinv as [Hm|Hs]; try discriminate; auto.
  - unfold handleDaySelect. destruct (editMode st) eqn:E; simpl.
    + destruct Hinv as [Hm|Hs]; [discriminate|]. rewrite E. auto.
    + left. destruct (selectedDay st) as [d|];
        [destruct (String.eqb d day)|]; reflexivity.
    + destruct Hinv as [Hm|Hs]; [discriminate|]. rewrite E. auto.
  - unfold handleSplitPress, handleSplitSelect.
    destruct (truthy (selectedDay st) && _).
    + destruct (negb (truthy _) || _); [assumption|].
      destruct (selectedDay st) eqn:Es; simpl; auto.
    + destruct (isMode _ _); simpl; assumption.
  - unfold handleSplitNameEdit. destruct (negb _); simpl; assumption.
  - unfold handleColorSelect. destruct (negb _); simpl; assumption.
  - unfold handleAddSplit. destruct (negb _); [assumption|].
    destruct (Nat.leb _ _); simpl; assumption.
  - unfold handleDeleteSplit. destruct (negb _); simpl; assumption.
  - simpl. assumption.
  - simpl. assumption.
Qed.

(** X2: whatever the user does on the screen as it mounts, a weekday is
    selected only while the editor is in program edit mode. *)
Theorem run_selection_only_in_program (events : list event)
  (loaded : list Split.t) :
  editMode (run events (initialScreen loaded)) <> EditMode.program ->
  selectedDay (run events (initialScreen loaded)) = None.
Proof.
  assert (Hinv : forall st,
            editMode st = EditMode.program \/ selectedDay st = None ->
            editMode (run events st) = EditMode.program
            \/ selectedDay (run events st) = None).
  { unfold run. induction events as [|ev events IH]; intros st Hst;
      [exact Hst|].
    simpl. apply IH. now apply handle_selection. }
  intros Hmode.
  destruct (Hinv (initialScreen loaded) (or_intror eq_refl)) as [H|H];
    [contradiction|exact H].
Qed.

Lemma run_selection_only_in_program_witness :
  selectedDay
    (run [ToggleProgramEditMode; DaySelect "Mon"; ToggleProgramEditMode;
          ToggleSplitsEditMode] (initialScreen [splitA; splitB]))
  = None.
Proof.
  apply run_selection_only_in_program. simpl. discriminate.
Defined.

(** X3: the schedule changes only through the events of the current edit
    mode: a split press in program edit mode, a rename, recolor, addition
    or deletion in splits edit mode, and a detail update in any mode; every
    other event leaves the list of splits as it is. *)
Theorem handle_gated (st : t) (ev : event) :
  mayEdit (editMode st) ev = false ->
  splits (handle st ev) = splits st.
Proof.
  destruct ev; simpl.
  - intros _. unfold toggleProgramEditMode. now destruct (editMode st).
  - intros _. unfold toggleSplitsEditMode. now destruct (editMode st).
  - intros _. unfold handleDaySelect. destruct (negb _); [reflexivity|].
    destruct (selectedDay st) as [d|]; [destruct (String.eqb d day)|];
      reflexivity.
  - unfold handleSplitPress, handleSplitSelect.
    destruct (editMode st) eqn:E; intros H; try discriminate; simpl.
    + rewrite andb_false_r. reflexivity.
    + rewrite andb_false_r. reflexivity.
  - unfold handleSplitNameEdit.
    destruct (editMode st); intros H; try discriminate; reflexivity.
  - unfold handleColorSelect.
    destruct (editMode st); intros H; try discriminate; reflexivity.
  - unfold handleAddSplit.
    destruct (editMode st); intros H; try discriminate; reflexivity.
  - unfold handleDeleteSplit.
    destruct (editMode st); intros H; try discriminate; reflexivity.
  - discriminate.
  - reflexivity.
Qed.

Lemma handle_gated_witness :
  splits (handle (initialScreen [splitA; splitB]) (DeleteSplit "A"))
  = [splitA; splitB].
Proof.
  exact (handle_gated (initialScreen [splitA; splitB]) (DeleteSplit "A")
           eq_refl).
Defined.

(** X4: in splits edit mode [handleDeleteSplit] keeps exactly the splits
    with another id, in their order; no split with the deleted id is left,
    and deleting an id that no split has changes nothing. *)
Theorem handleDeleteSplit_removes (st : t) (splitId : string) :
  editMode st = EditMode.splits ->
  let rest := splits (handleDeleteSplit splitId st) in
  rest = filter (fun s => negb (String.eqb (Split.id s) splitId)) (splits st)
  /\ ~ In splitId (map Split.id rest)
  /\ (forall s, In s rest <-> In s (splits st) /\ Split.id s <> splitId)
  /\ (~ In splitId (map Split.id (splits st)) -> rest = splits st).
Proof.
  intros Hmode rest. subst rest. unfold handleDeleteSplit.
  rewrite Hmode. cbn [isMode negb setSplits splits].
  split; [reflexivity|]. split; [|split].
  - intros Hin. apply in_map_iff in Hin as (s & Hid & Hs).
    apply filter_In in Hs as [_ Hne]. rewrite Hid, String.eqb_refl in Hne.
    discriminate.
  - intros s. rewrite filter_In, negb_true_iff, String.eqb_neq. reflexivity.
  - intros Habsent. apply filter_all. intros s Hs.
    apply negb_true_iff, String.eqb_neq. intros Hid. apply Habsent.
    rewrite <- Hid. now apply in_map.
Qed.

Lemma handleDeleteSplit_removes_witness :
  splits (handleDeleteSplit "A"
            (mk [splitA; splitB] EditMode.splits None None None))
  = [splitB].
Proof.
  exact (proj1 (handleDeleteSplit_removes
                  (mk [splitA; splitB] EditMode.splits None None None) "A"
                  eq_refl)).
Defined.

End Modes.

(* ------------------------------------------------------------------ *)
(** ** The derivation under the editor's operations *)

Module RosterFacts.
Import WorkoutScreen.

Lemma forEach_same_id s1 s2 exs acc :
  Split.id s1 = Split.id s2 ->
  fold_left (forEachExercise s1) exs acc
  = fold_left (forEachExercise s2) exs acc.
Proof.
  intros Hid. revert acc.
  induction exs as [|r exs IH]; intros acc; simpl; [reflexivity|].
  rewrite IH. f_equal. unfold forEachExercise. now rewrite Hid.
Qed.

(** The roster reads only the id and the exercise list of each split. *)
Lemma dedupe_view l1 l2 :
  map rosterView l1 = map rosterView l2 ->
  dedupeExercises l1 = dedupeExercises l2.
Proof.
  unfold dedupeExercises. generalize (@nil Exercise.t). revert l2.
  induction l1 as [|s1 l1 IH]; intros [|s2 l2] acc Hview;
    try discriminate; [reflexivity|].
  simpl in Hview. injection Hview as Hid Hexs Hrest.
  simpl. rewrite Hexs, (forEach_same_id s1 s2 _ _ Hid). now apply IH.
Qed.

Lemma dedupe_empty_split l s :
  Split.exercises s = [] -> dedupeExercises (l ++ [s]) = dedupeExercises l.
Proof.
  intros Hempty. unfold dedupeExercises. rewrite fold_left_app. simpl.
  now rewrite Hempty.
Qed.

Lemma processSplitsData_view l1 l2 :
  dedupeExercises l1 = dedupeExercises l2 ->
  processSplitsData l1 = processSplitsData l2.
Proof. intros H. unfold processSplitsData. now rewrite H. Qed.

Lemma map_view_unchanged (f : Split.t -> Split.t) l :
  (forall s, rosterView (f s) = rosterView s) ->
  map rosterView (map f l) = map rosterView l.
Proof. intros Hf. rewrite map_map. apply map_ext. exact Hf. Qed.

(** X5: assigning a weekday, renaming, recoloring and creating a split, as
    every event other than a deletion or a detail update, leave the derived
    roster and its grouping exactly as they were. *)
Theorem handle_keeps_derivation (st : t) (ev : event) :
  match ev with
  | DeleteSplit _ | SplitDetailUpdate _ => True
  | _ => processSplitsData (splits (handle st ev))
         = processSplitsData (splits st)
  end.
Proof.
  destruct ev; simpl; try exact I.
  - unfold toggleProgramEditMode. now destruct (editMode st).
  - unfold toggleSplitsEditMode. now destruct (editMode st).
  - unfold handleDaySelect. destruct (negb _); [reflexivity|].
    destruct (selectedDay st) as [d|]; [destruct (String.eqb d day)|];
      reflexivity.
  - unfold handleSplitPress, handleSplitSelect.
    destruct (truthy (selectedDay st) && _).
    + destruct (negb (truthy _) || _); [reflexivity|].
      destruct (selectedDay st) as [day|]; [|reflexivity]. simpl.
      apply processSplitsData_view, dedupe_view.
      rewrite Assign.assignDay_pointwise. apply map_view_unchanged.
      intros s. unfold reassigned. destruct (String.eqb _ _); reflexivity.
    + destruct (isMode _ _); reflexivity.
  - unfold handleSplitNameEdit. destruct (negb _); [reflexivity|]. simpl.
    apply processSplitsData_view, dedupe_view, map_view_unchanged.
    intros s. destruct (String.eqb _ _); reflexivity.
  - unfold handleColorSelect. destruct (negb _); [reflexivity|]. simpl.
    apply processSplitsData_view, dedupe_view, map_view_unchanged.
    intros s. destruct (String.eqb _ _); reflexivity.
  - unfold handleAddSplit. destruct (negb _); [reflexivity|].
    destruct (Nat.leb _ _); [reflexivity|]. simpl.
    apply processSplitsData_view. now apply dedupe_empty_split.
  - reflexivity.
Qed.

Lemma filter_comm {A} (p q : A -> bool) (l : list A) :
  filter p (filter q l) = filter q (filter p l).
Proof.
  rewrite !filter_filter. apply filter_ext. intros x. apply andb_comm.
Qed.

Lemma firstSeen_filter {A} (key : A -> string) (p : string -> bool)
  (l : list A) :
  firstSeen key (filter (fun x => p (key x)) l)
  = filter (fun x => p (key x)) (firstSeen key l).
Proof.
  induction l as [|a l IH]; simpl; [reflexivity|].
  destruct (p (key a)) eqn:Ea; simpl.
  - rewrite IH. f_equal. apply filter_comm.
  - rewrite IH, filter_filter. apply filter_ext_in. intros y _.
    destruct (String.eqb (key y) (key a)) eqn:E; simpl; [|reflexivity].
    apply String.eqb_eq in E. now rewrite E, Ea.
Qed.

Lemma map_filter_id (p : string -> bool) (l : list Split.t) :
  map Split.id (filter (fun s => p (Split.id s)) l)
  = filter p (map Split.id l).
Proof.
  induction l as [|s l IH]; simpl; [reflexivity|].
  destruct (p (Split.id s)); simpl; now rewrite IH.
Qed.

(** Without a split, an exercise is owned by those that owned it before,
    that split left out. *)
Lemma owners_without eid splitId l :
  owners eid (filter (fun s => negb (String.eqb (Split.id s) splitId)) l)
  = filter (fun sid => negb (String.eqb sid splitId)) (owners eid l).
Proof.
  unfold owners.
  rewrite (filter_comm
             (fun s => hasKey ExerciseRef.id eid (Split.exercises s))).
  rewrite (map_filter_id (fun sid => negb (String.eqb sid splitId))).
  apply (firstSeen_filter (fun sid : string => sid)
           (fun sid => negb (String.eqb sid splitId))).
Qed.

Lemma rosterSpec_find l eid :
  In eid (map ExerciseRef.id (flat_map Split.exercises l)) ->
  exists e, In e (rosterSpec l) /\ Exercise.id e = eid
            /\ Exercise.splitIds e = owners eid l.
Proof.
  intros Hin. apply Derived.rosterSpec_covers in Hin.
  apply in_map_iff in Hin as (e & Hid & He). exists e.
  destruct (Derived.rosterSpec_entry _ _ He) as (r & _ & Hr & _ & _ & Hs).
  repeat split; auto. rewrite Hs. congruence.
Qed.

(** X6: after a split is deleted, no roster entry names it any more; every
    entry of the new roster was in the old one and has the owners it had
    there, the deleted split left out; and every old entry with another
    owner is still in the roster. *)
Theorem handleDeleteSplit_roster (st : t) (splitId : string) :
  editMode st = EditMode.splits ->
  let before := dedupeExercises (splits st) in
  let after := dedupeExercises (splits (handleDeleteSplit splitId st)) in
  Forall (fun e => ~ In splitId (Exercise.splitIds e)) after
  /\ Forall (fun e' =>
               exists e, In e before /\ Exercise.id e = Exercise.id e'
                 /\ Exercise.splitIds e'
                    = filter (fun sid => negb (String.eqb sid splitId))
                        (Exercise.splitIds e))
       after
  /\ Forall (fun e =>
               (exists sid, In sid (Exercise.splitIds e) /\ sid <> splitId) ->
               In (Exercise.id e) (map Exercise.id after))
       before.
Proof.
  intros Hmode before after. subst before after.
  unfold handleDeleteSplit. rewrite Hmode. cbn [isMode negb setSplits splits].
  rewrite !Roster.dedupeExercises_spec.
  set (kept := filter (fun split => negb (String.eqb (Split.id split) splitId))
                 (splits st)).
  assert (Hsub : forall x, In x (flat_map Split.exercises kept) ->
                           In x (flat_map Split.exercises (splits st))).
  { intros x Hx. apply in_flat_map in Hx as (s & Hs & Hxs).
    apply filter_In in Hs as [Hs _]. apply in_flat_map. eauto. }
  assert (Hnew : forall e', In e' (rosterSpec kept) ->
            exists r, In r (flat_map Split.exercises kept)
              /\ Exercise.id e' = ExerciseRef.id r
              /\ Exercise.splitIds e'
                 = filter (fun sid => negb (String.eqb sid splitId))
                     (owners (ExerciseRef.id r) (splits st))).
  { intros e' He'.
    destruct (Derived.rosterSpec_entry _ _ He') as (r & Hr & Hid & _ & _ & Hs).
    exists r. repeat split; auto.
    rewrite Hs. apply owners_without. }
  split; [|split]; apply Forall_forall.
  - intros e' He'. destruct (Hnew e' He') as (r & _ & _ & Hs).
    rewrite Hs. intros Hin. apply filter_In in Hin as [_ Hne].
    now rewrite String.eqb_refl in Hne.
  - intros e' He'. destruct (Hnew e' He') as (r & Hr & Hid & Hs).
    destruct (rosterSpec_find (splits st) (ExerciseRef.id r)) as (e & He & Heid & Hes).
    { apply in_map. now apply Hsub. }
    exists e. repeat split; [assumption|congruence|]. now rewrite Hs, Hes.
  - intros e He (sid & Hsid & Hne).
    destruct (Derived.rosterSpec_entry _ _ He) as (r & _ & Hid & _ & _ & Hs).
    rewrite Hs in Hsid. apply Derived.owners_In in Hsid as (s & Hin & Hsid & Hlists).
    apply Derived.rosterSpec_covers. rewrite Hid.
    apply in_map_iff in Hlists as (r' & Hr' & Hin').
    apply in_map_iff. exists r'. split; [assumption|].
    apply in_flat_map. exists s. split; [|assumption].
    apply filter_In. split; [assumption|].
    apply negb_true_iff, String.eqb_neq. congruence.
Qed.

Lemma handleDeleteSplit_roster_witness :
  map (fun e => (Exercise.id e, Exercise.splitIds e))
    (dedupeExercises
       (splits (handleDeleteSplit "A"
                  (mk [splitA; splitB] EditMode.splits None None None))))
  = [("chest-1", ["B"]); ("legs-1", ["B"])]
  /\ Forall (fun e => ~ In "A" (Exercise.splitIds e))
       (dedupeExercises
          (splits (handleDeleteSplit "A"
                     (mk [splitA; splitB] EditMode.splits None None None)))).
Proof.
  split; [reflexivity|].
  exact (proj1 (handleDeleteSplit_roster
                  (mk [splitA; splitB] EditMode.splits None None None) "A"
                  eq_refl)).
Defined.

Lemma firstSeen_app {A} (key : A -> string) (l1 l2 : list A) :
  firstSeen key (l1 ++ l2)
  = firstSeen key l1
    ++ filter (fun y => negb (hasKey key (key y) l1)) (firstSeen key l2).
Proof.
  induction l1 as [|a l1 IH]; simpl.
  - symmetry. apply filter_all. reflexivity.
  - f_equal. rewrite IH, filter_app, filter_filter. f_equal.
    apply filter_ext. intros y.
    rewrite (String.eqb_sym (key a) (key y)), negb_orb. apply andb_comm.
Qed.

(** X7: appending a split to the schedule keeps the roster's entries in
    place: the ids of the new roster are those of the old one, in the same
    order, followed by the ids first seen in the appended split. *)
Theorem dedupeExercises_append (l : list Split.t) (s : Split.t) :
  map Exercise.id (dedupeExercises (l ++ [s]))
  = map Exercise.id (dedupeExercises l)
    ++ map ExerciseRef.id
         (filter (fun r => negb (hasKey ExerciseRef.id (ExerciseRef.id r)
                                   (flat_map Split.exercises l)))
            (firstSeen ExerciseRef.id (Split.exercises s))).
Proof.
  rewrite !Roster.dedupeExercises_spec, !Derived.rosterSpec_ids.
  rewrite flat_map_app. simpl. rewrite app_nil_r.
  now rewrite firstSeen_app, map_app.
Qed.

End RosterFacts.

(* ------------------------------------------------------------------ *)
(** ** When the derivation returns, and what its sections are *)

Module Sections.

Lemma groupStep_sticky l :
  fold_left groupStep l TypeError = TypeError.
Proof. induction l as [|e l IH]; simpl; [reflexivity|exact IH]. Qed.

Lemma groupByBodyPart_throws roster :
  allOwn roster = false -> groupByBodyPart roster = TypeError.
Proof.
  induction roster as [|e roster IH] using rev_ind; [discriminate|].
  unfold allOwn. rewrite forallb_app. simpl. rewrite andb_true_r.
  fold (allOwn roster).
  assert (Hstep : groupByBodyPart (roster ++ [e])
                  = groupStep (groupByBodyPart roster) e).
  { unfold groupByBodyPart. now rewrite fold_left_app. }
  rewrite Hstep.
  destruct (allOwn roster) eqn:Hown; simpl.
  - intros He. apply negb_false_iff in He.
    rewrite (Grouping.groupByBodyPart_spec roster Hown).
    apply Grouping.groupStep_throws; [assumption|].
    intros obj [= <-]. unfold JsObject.getOwn.
    assert (Hnone : find (fun kv => String.eqb (fst kv) (Exercise.bodyPart e))
                      (groupSpec roster) = None).
    { apply find_none_existsb.
      change (hasKey fst (Exercise.bodyPart e) (groupSpec roster) = false).
      rewrite Grouping.groupSpec_hasKey. apply hasKey_false_iff.
      intros x Hx. apply String.eqb_neq. intros Heq.
      unfold allOwn in Hown. rewrite forallb_forall in Hown.
      specialize (Hown x Hx). rewrite Heq, He in Hown. discriminate. }
    now rewrite Hnone.
  - intros _. now rewrite IH.
Qed.

Lemma processSplitsData_own splitsData :
  allOwn (dedupeExercises splitsData) = true ->
  processSplitsData splitsData
  = Ok (mkProcessedData (dedupeExercises splitsData)
          (groupSpec (dedupeExercises splitsData))
          (toSections (groupSpec (dedupeExercises splitsData)))).
Proof.
  intros Hown. unfold processSplitsData.
  now rewrite (Grouping.groupByBodyPart_spec _ Hown).
Qed.

(** X8: [processSplitsData] throws exactly when some roster entry has a
    body-part name that is a property name of [Object.prototype]; in every
    other case it returns. *)
Theorem processSplitsData_throws_iff (splitsData : list Split.t) :
  (processSplitsData splitsData = TypeError
   <-> allOwn (dedupeExercises splitsData) = false)
  /\ ((exists pd, processSplitsData splitsData = Ok pd)
      <-> allOwn (dedupeExercises splitsData) = true).
Proof.
  destruct (allOwn (dedupeExercises splitsData)) eqn:Hown.
  - rewrite (processSplitsData_own _ Hown). split; split; intros H;
      try discriminate; eauto.
  - unfold processSplitsData. rewrite (groupByBodyPart_throws _ Hown).
    split; split; intros H; try discriminate; try reflexivity.
    destruct H as [pd H]. discriminate.
Qed.

Lemma groupSpec_nonempty roster bp l :
  In (bp, l) (groupSpec roster) -> l <> [].
Proof.
  intros H. apply Derived.groupSpec_In in H as [-> Hbp].
  apply in_map_iff in Hbp as (e & <- & He). intros Hnil.
  assert (Hin : In e (filter (fun e' => String.eqb (Exercise.bodyPart e')
                                          (Exercise.bodyPart e)) roster)).
  { apply filter_In. split; [assumption|apply String.eqb_refl]. }
  rewrite Hnil in Hin. destruct Hin.
Qed.

(** X9: whenever [processSplitsData] returns, its sections have distinct
    ids, each section's id is its body part, no section is empty, and every
    exercise of a section has the section's body part. *)
Theorem bodyPartSections_wellformed (splitsData : list Split.t)
  (pd : ProcessedData) :
  processSplitsData splitsData = Ok pd ->
  NoDup (map BodyPartSectionData.id (bodyPartSections pd))
  /\ Forall (fun sec =>
               BodyPartSectionData.id sec = BodyPartSectionData.bodyPart sec
               /\ BodyPartSectionData.exercises sec <> []
               /\ Forall (fun e => Exercise.bodyPart e
                                   = BodyPartSectionData.bodyPart sec)
                    (BodyPartSectionData.exercises sec))
       (bodyPartSections pd).
Proof.
  intros Hpd.
  assert (Hown : allOwn (dedupeExercises splitsData) = true).
  { apply (proj2 (processSplitsData_throws_iff splitsData)). eauto. }
  rewrite (processSplitsData_own _ Hown) in Hpd. injection Hpd as <-.
  cbn [bodyPartSections]. unfold toSections. split.
  - rewrite map_map. cbn [BodyPartSectionData.id].
    apply (Permutation_NoDup
             (l := map fst (groupSpec (dedupeExercises splitsData)))).
    + apply Permutation_map. symmetry. apply Entries.entries_perm.
    + apply Grouping.groupSpec_NoDup.
  - apply Forall_forall. intros sec Hsec.
    apply in_map_iff in Hsec as ([bp l] & <- & Hkv).
    apply (Permutation_in _ (Entries.entries_perm _)) in Hkv.
    cbn [BodyPartSectionData.id BodyPartSectionData.bodyPart
         BodyPartSectionData.exercises fst snd].
    split; [reflexivity|]. split; [now apply groupSpec_nonempty in Hkv|].
    apply Derived.groupSpec_In in Hkv as [-> _].
    apply Forall_forall. intros e He. apply filter_In in He as [_ He].
    now apply String.eqb_eq.
Qed.

Lemma bodyPartSections_wellformed_witness :
  exists pd,
    processSplitsData numericSchedule = Ok pd
    /\ NoDup (map BodyPartSectionData.id (bodyPartSections pd)).
Proof.
  eexists. split; [reflexivity|].
  exact (proj1 (bodyPartSections_wellformed numericSchedule _ eq_refl)).
Defined.

(** X10: for a schedule whose exercises all carry body parts of the
    catalog, [processSplitsData] returns, its sections follow the order in
    which the body parts first occur in the roster, every section is a
    catalog body part, and there are at most seven sections. *)
Theorem processSplitsData_catalog (splitsData : list Split.t) :
  catalogBodyParts splitsData = true ->
  exists pd,
    processSplitsData splitsData = Ok pd
    /\ map BodyPartSectionData.bodyPart (bodyPartSections pd)
       = firstSeen (fun bp => bp) (map Exercise.bodyPart (exercises pd))
    /\ incl (map BodyPartSectionData.bodyPart (bodyPartSections pd)) BODY_PARTS
    /\ List.length (bodyPartSections pd) <= 7.
Proof.
  intros Hcat.
  destruct (Derivation.catalogBodyParts_plain _ Hcat) as [Hinh Hidx].
  eexists. split; [now apply Derivation.processSplitsData_returns|].
  cbn [bodyPartSections exercises]. unfold toSections.
  rewrite Entries.entries_plain by (now apply Derived.groupSpec_noIndex).
  rewrite map_map. cbn [BodyPartSectionData.bodyPart].
  rewrite Grouping.groupSpec_keys.
  assert (Hincl : incl (firstSeen (fun bp => bp)
                          (map Exercise.bodyPart (rosterSpec splitsData)))
                    BODY_PARTS).
  { intros bp Hbp. apply (proj1 (Derived.firstSeen_strings_In _ _)) in Hbp.
    apply in_map_iff in Hbp as (e & <- & He).
    destruct (Derived.rosterSpec_entry _ _ He) as (r & Hr & _ & _ & Hbp & _).
    unfold catalogBodyParts in Hcat. rewrite forallb_forall in Hcat.
    rewrite Hbp. apply SessionLog.includes_In. now apply Hcat. }
  split; [reflexivity|]. split; [exact Hincl|].
  rewrite length_map, <- (length_map fst), Grouping.groupSpec_keys.
  apply (NoDup_incl_length (Derived.firstSeen_strings_NoDup _) Hincl).
Qed.

Lemma processSplitsData_catalog_witness :
  exists pd,
    processSplitsData [splitA; splitB] = Ok pd
    /\ List.length (bodyPartSections pd) <= 7.
Proof.
  destruct (processSplitsData_catalog [splitA; splitB] eq_refl)
    as (pd & Hpd & _ & _ & Hlen).
  exists pd. split; assumption.
Defined.

End Sections.

(* ------------------------------------------------------------------ *)
(** ** Exclusive weekdays, and what the program header shows *)

Module Program.
Import WorkoutScreen.

Lemma days_removeDay day l :
  flat_map Split.days (map (removeDay day) l)
  = filter (fun d => negb (String.eqb d day)) (flat_map Split.days l).
Proof.
  induction l as [|s l IH]; simpl; [reflexivity|].
  now rewrite IH, filter_app.
Qed.

Lemma assignDay_absent day split l :
  ~ In (Split.id split) (map Split.id l) ->
  assignDay day split l = map (removeDay day) l.
Proof.
  intros Habsent. rewrite Assign.assignDay_pointwise. apply map_ext_in.
  intros s Hs. unfold reassigned.
  destruct (String.eqb (Split.id s) (Split.id split)) eqn:E; [|reflexivity].
  apply String.eqb_eq in E. exfalso. apply Habsent. rewrite <- E.
  now apply in_map.
Qed.

(** With distinct ids, the days after an assignment are the other days
    and, when the chosen id is there, the assigned day once. *)
Lemma days_assignDay day split l :
  NoDup (map Split.id l) ->
  Permutation (flat_map Split.days (assignDay day split l))
    ((if hasKey Split.id (Split.id split) l then [day] else [])
     ++ filter (fun d => negb (String.eqb d day)) (flat_map Split.days l)).
Proof.
  induction l as [|s l IH]; intros Hnd; [reflexivity|].
  inversion Hnd as [|? ? Hs Hl]; subst.
  rewrite Assign.assignDay_pointwise.
  cbn [map flat_map hasKey existsb].
  rewrite <- Assign.assignDay_pointwise, filter_app.
  unfold reassigned.
  destruct (String.eqb (Split.id s) (Split.id split)) eqn:E.
  - apply String.eqb_eq in E.
    rewrite assignDay_absent by (rewrite <- E; exact Hs).
    rewrite days_removeDay. cbn [orb WorkoutScreen.addDay Split.days
                                 WorkoutScreen.removeDay].
    rewrite <- app_assoc. cbn [app].
    rewrite <- Permutation_middle. reflexivity.
  - rewrite (IH Hl). cbn [orb WorkoutScreen.removeDay Split.days].
    fold (hasKey Split.id (Split.id split) l).
    destruct (hasKey Split.id (Split.id split) l); cbn [app].
    + rewrite <- Permutation_middle. reflexivity.
    + reflexivity.
Qed.

Lemma assignDay_exclusive day split l :
  NoDup (map Split.id l) -> exclusiveDays l ->
  exclusiveDays (assignDay day split l).
Proof.
  unfold exclusiveDays. intros Hids Hex.
  apply (Permutation_NoDup (Permutation_sym (days_assignDay day split l Hids))).
  assert (Hrest : NoDup (filter (fun d => negb (String.eqb d day))
                           (flat_map Split.days l)))
    by now apply NoDup_filter.
  destruct (hasKey Split.id (Split.id split) l); [|exact Hrest].
  simpl. constructor; [|exact Hrest].
  intros Hin. apply filter_In in Hin as [_ Hne].
  now rewrite String.eqb_refl in Hne.
Qed.

Lemma NoDup_app_apart {A} (l1 l2 : list A) (a : A) :
  NoDup (l1 ++ l2) -> In a l1 -> ~ In a l2.
Proof.
  induction l1 as [|x l1 IH]; simpl; intros Hnd Hin; [contradiction|].
  inversion Hnd as [|? ? Hx Hrest]; subst.
  destruct Hin as [<-|Hin]; [|now apply IH].
  intros Hin2. apply Hx. apply in_or_app. now right.
Qed.

Lemma exclusive_filter (p : Split.t -> bool) l :
  exclusiveDays l -> exclusiveDays (filter p l).
Proof.
  unfold exclusiveDays. induction l as [|s l IH]; simpl; [auto|].
  intros Hnd. pose proof (NoDup_app_remove_l _ _ Hnd) as Hl.
  destruct (p s); simpl; [|now apply IH].
  apply NoDup_app.
  - now apply NoDup_app_remove_r in Hnd.
  - now apply IH.
  - intros d Hd Hin. apply in_flat_map in Hin as (s' & Hs' & Hds').
    apply filter_In in Hs' as [Hs' _].
    apply (NoDup_app_apart _ _ d Hnd Hd).
    apply in_flat_map. eauto.
Qed.

Lemma exclusive_same_days (f : Split.t -> Split.t) l :
  (forall s, Split.days (f s) = Split.days s) ->
  exclusiveDays l -> exclusiveDays (map f l).
Proof.
  unfold exclusiveDays. intros Hf Hex.
  replace (flat_map Split.days (map f l)) with (flat_map Split.days l);
    [exact Hex|].
  clear Hex. induction l as [|s l IH]; simpl; [reflexivity|].
  now rewrite Hf, IH.
Qed.

(** X11: as long as the split ids are distinct, every editor event other
    than a detail update keeps the weekdays exclusive: a schedule in which
    no weekday occurs twice is left as one. *)
Theorem handle_keeps_exclusive (st : t) (ev : event) :
  NoDup (map Split.id (splits st)) ->
  exclusiveDays (splits st) ->
  (forall updatedSplit, ev <> SplitDetailUpdate updatedSplit) ->
  exclusiveDays (splits (handle st ev)).
Proof.
  intros Hids Hex Hev. destruct ev; simpl.
  - unfold toggleProgramEditMode. now destruct (editMode st).
  - unfold toggleSplitsEditMode. now destruct (editMode st).
  - unfold handleDaySelect. destruct (negb _); [assumption|].
    destruct (selectedDay st) as [d|]; [destruct (String.eqb d day)|];
      assumption.
  - unfold handleSplitPress, handleSplitSelect.
    destruct (truthy (selectedDay st) && _).
    + destruct (negb (truthy _) || _); [assumption|].
      destruct (selectedDay st) as [day|]; [|assumption]. simpl.
      now apply assignDay_exclusive.
    + destruct (isMode _ _); assumption.
  - unfold handleSplitNameEdit. destruct (negb _); [assumption|]. simpl.
    apply exclusive_same_days; [|assumption].
    intros s. now destruct (String.eqb _ _).
  - unfold handleColorSelect. destruct (negb _); [assumption|]. simpl.
    apply exclusive_same_days; [|assumption].
    intros s. now destruct (String.eqb _ _).
  - unfold handleAddSplit. destruct (negb _); [assumption|].
    destruct (Nat.leb _ _); [assumption|]. simpl.
    unfold exclusiveDays. rewrite flat_map_app. simpl.
    now rewrite !app_nil_r.
  - unfold handleDeleteSplit. destruct (negb _); [assumption|]. simpl.
    now apply exclusive_filter.
  - destruct (Hev updatedSplit eq_refl).
  - assumption.
Qed.

Lemma handle_keeps_exclusive_witness :
  exclusiveDays (splits (handle mondaySelected (SplitPress splitB)))
  /\ map Split.days (splits (handle mondaySelected (SplitPress splitB)))
     = [[]; ["Wed"; "Mon"]].
Proof.
  split; [|reflexivity].
  apply (handle_keeps_exclusive mondaySelected (SplitPress splitB)).
  - simpl. repeat constructor; simpl; intuition discriminate.
  - unfold exclusiveDays. simpl.
    repeat constructor; simpl; intuition discriminate.
  - discriminate.
Defined.

Lemma find_filter_head {A} (p : A -> bool) (l : list A) :
  find p l = hd_error (filter p l).
Proof.
  induction l as [|a l IH]; simpl; [reflexivity|].
  now destruct (p a).
Qed.

(** X12: the program header and the progress screen agree on the split of
    a weekday: the split the lookup returns is the first of the tile's
    [daySplits], and the lookup is empty exactly when the tile has none. *)
Theorem daySplits_agrees_with_lookup (day : string) (splitsData : list Split.t) :
  day <> "" ->
  ProgressScreen.getScheduledSplit splitsData (JsValue day)
  = match daySplits day splitsData with
    | first :: _ => JsValue first
    | [] => JsUndefined
    end.
Proof.
  intros Hday. rewrite (SessionLog.getScheduledSplit_weekday _ _ Hday).
  unfold daySplits. rewrite find_filter_head.
  now destruct (filter _ splitsData).
Qed.

Lemma daySplits_agrees_with_lookup_witness :
  ProgressScreen.getScheduledSplit mondayTwice (JsValue "Mon")
  = match daySplits "Mon" mondayTwice with
    | first :: _ => JsValue first
    | [] => JsUndefined
    end.
Proof.
  apply daySplits_agrees_with_lookup. discriminate.
Defined.

(** X13: after a weekday has been assigned, its tile shows the splits with
    the chosen id and no other: [daySplits] of that day are exactly the
    splits with that id, and the tile takes the color of the first of them
    (the default color when it has none). *)
Theorem daySplits_after_assign (st : t) (split : Split.t) (day : string) :
  editMode st = EditMode.program ->
  selectedDay st = Some day ->
  day <> "" ->
  let after := splits (handleSplitSelect split st) in
  daySplits day after
  = filter (fun s => String.eqb (Split.id s) (Split.id split)) after
  /\ weekdayColor day after
     = match find (fun s => String.eqb (Split.id s) (Split.id split)) after with
       | Some s => orColor (Split.color s) "#3A3E48"
       | None => "#3A3E48"
       end.
Proof.
  intros Hmode Hday Hne after. subst after.
  rewrite (Assign.handleSplitSelect_assigns split st day Hmode Hday Hne).
  cbn [splits].
  assert (Hsame : daySplits day (assignDay day split (splits st))
                  = filter (fun s => String.eqb (Split.id s) (Split.id split))
                      (assignDay day split (splits st))).
  { unfold daySplits. apply filter_ext_in. intros s Hs.
    rewrite Assign.assignDay_pointwise in Hs.
    apply in_map_iff in Hs as (s0 & <- & _).
    pose proof (Assign.reassigned_days day split s0) as Hiff.
    destruct (includes day (Split.days (reassigned day split s0))) eqn:Hinc.
    - symmetry. apply String.eqb_eq, Hiff. now apply SessionLog.includes_In.
    - symmetry. apply String.eqb_neq. intros Hid. apply Hiff in Hid.
      apply SessionLog.includes_In in Hid. congruence. }
  split; [exact Hsame|].
  unfold weekdayColor. rewrite Hsame, find_filter_head.
  now destruct (filter _ _).
Qed.

Lemma daySplits_after_assign_witness :
  map Split.id
    (daySplits "Mon" (splits (handleSplitSelect splitB mondaySelected)))
  = ["B"].
Proof.
  rewrite (proj1 (daySplits_after_assign mondaySelected splitB "Mon"
                    eq_refl eq_refl ltac:(discriminate))).
  reflexivity.
Defined.

(** X14: with distinct split ids, an exercise of the roster is marked on a
    weekday exactly when some split that lists the exercise has that
    weekday among its days. *)
Theorem dayAssignments_scheduled (splitsData : list Split.t)
  (e : Exercise.t) (day : string) :
  NoDup (map Split.id splitsData) ->
  In e (dedupeExercises splitsData) ->
  (dayAssignments splitsData e day = true
   <-> exists s, In s splitsData
         /\ In (Exercise.id e) (map ExerciseRef.id (Split.exercises s))
         /\ In day (Split.days s)).
Proof.
  intros Hids He. rewrite Roster.dedupeExercises_spec in He.
  destruct (Derived.rosterSpec_entry _ _ He) as (r & _ & Hid & _ & _ & Hs).
  unfold dayAssignments. rewrite Hs, Hid, existsb_exists. split.
  - intros (sid & Hsid & Hfound).
    destruct (find _ splitsData) as [s0|] eqn:Hfind; [|discriminate].
    apply find_some in Hfind as [Hin0 Heq0]. apply String.eqb_eq in Heq0.
    apply Derived.owners_In in Hsid as (s & Hin & Hsid & Hlists).
    assert (s0 = s)
      by (apply (NoDup_map_eq Split.id splitsData); auto; congruence).
    subst s0. exists s. repeat split; auto. now apply SessionLog.includes_In.
  - intros (s & Hin & Hlists & Hday). exists (Split.id s). split.
    + apply Derived.owners_In. eauto.
    + destruct (find _ splitsData) as [s0|] eqn:Hfind.
      * apply find_some in Hfind as [Hin0 Heq0]. apply String.eqb_eq in Heq0.
        assert (s0 = s) by (apply (NoDup_map_eq Split.id splitsData); auto).
        subst s0. now apply SessionLog.includes_In.
      * apply (find_none _ _ Hfind) in Hin.
        now rewrite String.eqb_refl in Hin.
Qed.

Lemma dayAssignments_scheduled_witness :
  dayAssignments [splitA; splitB]
    (Exercise.mk "chest-1" "Flat Bench Press" "Chest" ["A"; "B"]) "Wed"
  = true.
Proof.
  apply (dayAssignments_scheduled [splitA; splitB]).
  - simpl. repeat constructor; simpl; intuition discriminate.
  - simpl. left. reflexivity.
  - exists splitB. simpl. auto.
Defined.

(** X15: outside edit modes [toggleExerciseExpansion] flips whether the
    exercise is expanded and leaves every other exercise as it was, and a
    list without repetition stays one; in an edit mode it does nothing. *)
Theorem toggleExerciseExpansion_flips (mode : EditMode.t)
  (exerciseId : string) (prev : list string) :
  (mode <> EditMode.none ->
   toggleExerciseExpansion mode exerciseId prev = prev)
  /\ (mode = EditMode.none ->
      includes exerciseId (toggleExerciseExpansion mode exerciseId prev)
      = negb (includes exerciseId prev)
      /\ (forall other, other <> exerciseId ->
            includes other (toggleExerciseExpansion mode exerciseId prev)
            = includes other prev)
      /\ (NoDup prev ->
          NoDup (toggleExerciseExpansion mode exerciseId prev))).
Proof.
  split.
  - intros Hmode. unfold toggleExerciseExpansion.
    destruct mode; [contradiction|reflexivity|reflexivity].
  - intros ->. unfold toggleExerciseExpansion. cbn [isMode negb].
    destruct (includes exerciseId prev) eqn:Hinc.
    + split; [|split].
      * simpl. apply not_true_is_false. intros H.
        apply SessionLog.includes_In, filter_In in H as [_ H].
        now rewrite String.eqb_refl in H.
      * intros other Hother. unfold includes.
        induction prev as [|x prev IH]; simpl; [reflexivity|].
        destruct (String.eqb x exerciseId) eqn:E; simpl.
        -- apply String.eqb_eq in E. subst x.
           apply String.eqb_neq in Hother. rewrite Hother. simpl.
           unfold includes in Hinc. simpl in Hinc.
           destruct (existsb (String.eqb exerciseId) prev) eqn:Hp.
           ++ now apply IH.
           ++ clear IH Hinc. induction prev as [|y prev IHp]; simpl;
                [reflexivity|].
              simpl in Hp. apply orb_false_iff in Hp as [Hy Hp].
              rewrite String.eqb_sym in Hy. rewrite Hy. simpl.
              now rewrite IHp.
        -- unfold includes in Hinc. simpl in Hinc.
           rewrite String.eqb_sym in E. rewrite E in Hinc. simpl in Hinc.
           now rewrite IH.
      * intros Hnd. now apply NoDup_filter.
    + split; [|split].
      * unfold includes. rewrite existsb_app. simpl.
        rewrite String.eqb_refl. apply orb_true_r.
      * intros other Hother. unfold includes. rewrite existsb_app. simpl.
        apply String.eqb_neq in Hother. rewrite Hother. simpl.
        now rewrite orb_false_r.
      * intros Hnd. apply NoDup_app; [assumption|repeat constructor; auto|].
        intros x Hx [<-|[]]. apply SessionLog.includes_In in Hx. congruence.
Qed.

Lemma toggleExerciseExpansion_flips_witness :
  toggleExerciseExpansion EditMode.none "chest-1" ["legs-1"; "chest-1"]
  = ["legs-1"]
  /\ includes "chest-1"
       (toggleExerciseExpansion EditMode.none "chest-1" ["legs-1"; "chest-1"])
     = negb (includes "chest-1" ["legs-1"; "chest-1"]).
Proof.
  split; [reflexivity|].
  exact (proj1 (proj2 (toggleExerciseExpansion_flips EditMode.none "chest-1"
                         ["legs-1"; "chest-1"]) eq_refl)).
Defined.

End Program.

(* ------------------------------------------------------------------ *)
(** ** Removing exercises, unmounting, loading *)

Module Lifecycle.

Lemma removeAt_split {A} (index : nat) (l : list A) :
  SplitDetailScreen.removeAt index l = firstn index l ++ skipn (S index) l.
Proof.
  revert index. induction l as [|x l IH]; intros [|i]; simpl; try reflexivity.
  now rewrite IH.
Qed.

Lemma removeAt_last {A} (l : list A) (a : A) :
  SplitDetailScreen.removeAt (List.length l) (l ++ [a]) = l.
Proof. induction l as [|x l IH]; simpl; [reflexivity|]. now rewrite IH. Qed.

(** X16: [handleRemoveExercise] drops exactly the exercise at the given
    position: the list keeps what came before and after it, gets one
    shorter for a position inside the list and stays as it is for a
    position past its end; removing the position just past the old end
    undoes the addition of one exercise. *)
Theorem handleRemoveExercise_position {SetT : Type} (resolved : bool)
  (index : nat) (st : SplitDetailScreen.t SetT) :
  let before := SplitDetailScreen.exercises st in
  let after :=
    SplitDetailScreen.exercises
      (SplitDetailScreen.handleRemoveExercise resolved index st) in
  after = firstn index before ++ skipn (S index) before
  /\ (index < List.length before -> S (List.length after) = List.length before)
  /\ (List.length before <= index -> after = before)
  /\ (forall resolved' x,
        SplitDetailScreen.exercises
          (SplitDetailScreen.handleRemoveExercise resolved
             (List.length before)
             (SplitDetailScreen.handleAddExercise resolved' [x] st))
        = before).
Proof.
  intros before after. subst before after.
  unfold SplitDetailScreen.handleRemoveExercise.
  cbn [SplitDetailScreen.exercises]. rewrite removeAt_split.
  split; [reflexivity|]. split; [|split].
  - intros Hin. rewrite length_app, length_firstn, length_skipn. lia.
  - intros Hout. rewrite firstn_all2 by assumption.
    rewrite skipn_all2 by lia. apply app_nil_r.
  - intros resolved' x. unfold SplitDetailScreen.handleAddExercise.
    cbn [SplitDetailScreen.exercises map]. apply removeAt_last.
Qed.

Lemma handleRemoveExercise_position_witness :
  map SplitDetailScreen.id
    (SplitDetailScreen.exercises
       (SplitDetailScreen.handleRemoveExercise true 5 splitADetail))
  = ["chest-1"].
Proof.
  rewrite (proj1 (proj2 (proj2
            (handleRemoveExercise_position true 5 splitADetail)))
            ltac:(simpl; lia)).
  reflexivity.
Defined.

Lemma saved_saveEffect d st :
  Persistence.saved (Persistence.saveEffect d st) = Persistence.saved st.
Proof.
  unfold Persistence.saveEffect.
  now destruct (Persistence.isInitialLoadRef st).
Qed.

Lemma saved_after_mutations mutations time d :
  Persistence.saved
    (fold_left Persistence.mutation (mutations ++ [(time, d)])
       Persistence.loaded)
  = Persistence.coalesced mutations time.
Proof.
  rewrite fold_left_app. simpl. unfold Persistence.mutation at 1.
  rewrite saved_saveEffect. apply Debounce.run_coalesced.
Qed.

(** X17: when the screen unmounts before the window of the last mutation
    has ended, that mutation is never saved: the saves are those that had
    happened by the time of the last mutation, however long one waits. *)
Theorem unmount_drops_pending (mutations : list (Z * list Split.t))
  (time : Z) (d : list Split.t) (left until : Z) :
  (left < time + Persistence.window)%Z ->
  Persistence.saved
    (Persistence.advance until
       (unmount
          (Persistence.advance left
             (fold_left Persistence.mutation (mutations ++ [(time, d)])
                Persistence.loaded))))
  = Persistence.coalesced mutations time.
Proof.
  intros Hleft. rewrite <- (saved_after_mutations mutations time d).
  destruct (Debounce.fold_mutation_armed mutations time d)
    as (_ & h & Href & Hpending).
  set (st := fold_left Persistence.mutation (mutations ++ [(time, d)])
               Persistence.loaded) in *.
  unfold Persistence.advance, unmount.
  cbn [Persistence.saveTimeoutRef Persistence.pending Persistence.saved
       Persistence.now Persistence.nextHandle Persistence.isInitialLoadRef].
  rewrite Href, Hpending.
  cbn [filter Persistence.due Persistence.data map].
  replace (time + Persistence.window <=? left)%Z with false
    by (symmetry; apply Z.leb_gt; lia).
  cbn [negb filter Persistence.clearTimeout Persistence.handle map
       Persistence.pending Persistence.saved].
  rewrite Pos.eqb_refl. cbn [negb filter map]. now rewrite !app_nil_r.
Qed.

Lemma unmount_drops_pending_witness :
  Persistence.saved
    (Persistence.advance 5000
       (unmount
          (Persistence.advance 400
             (fold_left Persistence.mutation
                ([(0, [splitA])] ++ [(100, [splitA; splitB])])%Z
                Persistence.loaded))))
  = [].
Proof.
  rewrite (unmount_drops_pending [(0, [splitA])]%Z 100 [splitA; splitB]
             400 5000 ltac:(unfold Persistence.window; lia)).
  reflexivity.
Defined.




(** X19: under any sequence of editor events a schedule of at most seven
    splits keeps at most seven splits. *)
Theorem run_keeps_seven (events : list WorkoutScreen.event)
  (st : WorkoutScreen.t) :
  List.length (WorkoutScreen.splits st) <= 7 ->
  List.length (WorkoutScreen.splits (WorkoutScreen.run events st)) <= 7.
Proof.
  unfold WorkoutScreen.run. revert st.
  induction events as [|ev events IH]; intros st Hlen; [exact Hlen|].
  simpl. apply IH. pose proof (AddSplit.handle_length st ev). lia.
Qed.

Lemma run_keeps_seven_witness :
  List.length
    (WorkoutScreen.splits
       (WorkoutScreen.run
          [WorkoutScreen.AddSplit 1; WorkoutScreen.AddSplit 2;
           WorkoutScreen.AddSplit 3; WorkoutScreen.AddSplit 4;
           WorkoutScreen.AddSplit 5; WorkoutScreen.AddSplit 6;
           WorkoutScreen.AddSplit 7; WorkoutScreen.AddSplit 8]
          (WorkoutScreen.mk [splitA; splitB] EditMode.splits None None None)))
  <= 7.
Proof.
  apply run_keeps_seven. simpl. lia.
Defined.

End Lifecycle.

(* ------------------------------------------------------------------ *)
(** ** The progress screen *)

Module Progress.
Import ProgressScreen.



Lemma nth_days n :
  n < 7 -> nth_error days n = Some (nth n days "").
Proof.
  intros Hn. do 7 (destruct n as [|n]; [reflexivity|]). lia.
Qed.

(** X21: for the date string of a calendar day, [getDayOfWeek] names the
    weekday of that day on a device on or east of UTC, and the weekday of
    the day before on a device west of UTC. *)
Theorem getDayOfWeek_calendar (localTZA : Z -> Z)
  (parseOther : string -> option Z) (y m d : Z) :
  (1000 <= y <= 9999)%Z -> (1 <= m <= 12)%Z ->
  (1 <= d <= JsDate.daysInMonth (JsDate.InLeapYear y) (m - 1))%Z ->
  let D := JsDate.MakeDay y (m - 1) d in
  let offset := localTZA (D * JsDate.msPerDay)%Z in
  (- JsDate.msPerDay <= offset < JsDate.msPerDay)%Z ->
  getDayOfWeek (JsDate.getDay localTZA parseOther) (Some (isoDate y m d))
  = JsValue
      (nth (Z.to_nat (((if (offset <? 0)%Z then D - 1 else D) + 4) mod 7))
         days "").
Proof.
  intros Hy Hm Hd D offset Hoff. unfold getDayOfWeek.
  rewrite (SessionLog.isoDate_nonempty y m d Hy).
  rewrite (SessionLog.getDay_isoDate localTZA parseOther y m d Hy Hm Hd Hoff).
  fold D. fold offset.
  replace ((if (offset <? 0)%Z then (D - 1 + 4) mod 7 else (D + 4) mod 7)%Z)
    with ((((if (offset <? 0)%Z then D - 1 else D) + 4) mod 7)%Z)
    by now destruct (offset <? 0)%Z.
  rewrite nth_days; [reflexivity|].
  pose proof (Z.mod_pos_bound ((if (offset <? 0)%Z then D - 1 else D) + 4) 7
                ltac:(lia)). lia.
Qed.

Lemma getDayOfWeek_calendar_witness :
  getDayOfWeek (JsDate.getDay JsDate.utc JsDate.unparsed)
    (Some (isoDate 2026 11 9))
  = JsValue "Mon".
Proof.
  rewrite (getDayOfWeek_calendar JsDate.utc JsDate.unparsed 2026 11 9
             ltac:(lia) ltac:(lia) ltac:(vm_compute; split; discriminate)
             ltac:(vm_compute; split; [discriminate|reflexivity])).
  reflexivity.
Defined.

(** X22: the string the screen builds for today is read back by [Date] as
    today's calendar day. *)
Theorem todayString_parses (st : t) :
  (1000 <= fullYear (today st) <= 9999)%Z ->
  (0 <= month (today st) <= 11)%Z ->
  (1 <= dayOfMonth (today st)
   <= JsDate.daysInMonth (JsDate.InLeapYear (fullYear (today st)))
        (month (today st)))%Z ->
  JsDate.parseDateOnly (todayString st)
  = Some (fullYear (today st), (month (today st) + 1)%Z,
          dayOfMonth (today st)).
Proof.
  intros Hy Hm Hd. rewrite SessionLog.todayString_isoDate.
  apply SessionLog.parseDateOnly_isoDate; [assumption|lia|].
  now replace (month (today st) + 1 - 1)%Z with (month (today st)) by lia.
Qed.

Lemma todayString_parses_witness :
  JsDate.parseDateOnly (todayString nextMonday) = Some (2026, 11, 2)%Z.
Proof.
  apply (todayString_parses nextMonday).
  - simpl. lia.
  - simpl. lia.
  - vm_compute. split; discriminate.
Defined.

(** X23: for a selected [YYYY-MM-DD] date, [isFutureDate] holds exactly
    when that day is later than today in the calendar; without a selected
    date it is false. *)
Theorem isFutureDate_calendar (st : t) (y m d : Z) :
  selectedDate st = Some (isoDate y m d) ->
  (1000 <= y <= 9999)%Z -> (1 <= m <= 12)%Z -> (1 <= d <= 31)%Z ->
  (1000 <= fullYear (today st) <= 9999)%Z ->
  (0 <= month (today st) <= 11)%Z ->
  (1 <= dayOfMonth (today st) <= 31)%Z ->
  (isFutureDate st = true
   <-> later y m d (fullYear (today st)) (month (today st) + 1)
         (dayOfMonth (today st))).
Proof.
  intros Hsel Hy Hm Hd Hy' Hm' Hd'.
  unfold isFutureDate. rewrite Hsel, (SessionLog.isoDate_nonempty y m d Hy).
  rewrite SessionLog.todayString_isoDate. unfold stringGt.
  rewrite DateStrings.isoDate_compare by lia.
  rewrite <- SessionLog.stringGt_days.
  destruct (compareDays _ _ _ _ _ _);
    split; intros H; try discriminate; reflexivity.
Qed.

Lemma isFutureDate_calendar_witness :
  isFutureDate nextMonday = true.
Proof.
  apply (isFutureDate_calendar nextMonday 2026 11 9 eq_refl); simpl;
    try lia.
  unfold later. lia.
Defined.

(** X24: whatever [Date] reports, the lookup does not fail: a split it
    returns is a split of the schedule whose days contain the computed
    weekday; [undefined] means a weekday was computed and no split's days
    contain it; [null] means no weekday was computed. *)
Theorem scheduledSplit_outcomes (getDay : string -> option nat) (st : t) :
  match scheduledSplit getDay st with
  | JsValue s =>
      exists d, getDayOfWeek getDay (Some (shownDate st)) = JsValue d
                /\ In s (splits st) /\ In d (Split.days s)
  | JsUndefined =>
      exists d, getDayOfWeek getDay (Some (shownDate st)) = JsValue d
                /\ forall s, In s (splits st) -> ~ In d (Split.days s)
  | JsNull => isEmpty (getDayOfWeek getDay (Some (shownDate st))) = true
  end.
Proof.
  unfold scheduledSplit.
  destruct (getDayOfWeek getDay (Some (shownDate st))) as [| |d] eqn:Hday;
    try reflexivity.
  pose proof (SessionLog.days_nonempty d
                (SessionLog.getDayOfWeek_value _ _ _ Hday)) as Hne.
  rewrite (SessionLog.getScheduledSplit_weekday _ d Hne).
  destruct (find _ (splits st)) as [s|] eqn:Hfind.
  - apply find_some in Hfind as [Hin Hinc]. exists d.
    repeat split; auto. now apply SessionLog.includes_In.
  - exists d. split; [reflexivity|]. intros s Hs Hd.
    apply SessionLog.includes_In in Hd.
    now rewrite (find_none _ _ Hfind s Hs) in Hd.
Qed.

End Progress.
